(** * PostgreSQL-Profiler: a shallow embedding of the monitoring core

    Files embedded (all under [src/postgresql_profiler/src/services]):
    - [celery_tasks.py]: [collect_metrics_task],
      [collect_query_statistics_task], [cleanup_old_data_task],
      [schedule_monitoring_tasks];
    - [postgresql_monitor.py]: [PostgreSQLMonitor.create_connection_pool],
      [close_connection_pool], [collect_performance_metrics],
      [collect_query_statistics], [_detect_query_type];
    - [performance_analyzer.py]: [OptimizedPerformanceAnalyzer] (model cache,
      [predict_load], [detect_anomalies], [predict_query_time],
      [_create_anomaly_alert], [generate_ml_recommendations],
      [_analyze_performance_trends]);
    - [ml_tasks.py]: the three training tasks, [cleanup_old_models],
      [load_model], [get_model_paths];
    - [cache_service.py]: [CacheService] ([get], [set], [delete],
      [delete_pattern]), [cache_response] and [_generate_cache_key].

    Times are integers counting microseconds (the resolution of Python's
    [datetime]).  Floats of the source are modelled as rationals [Q]: the
    claims only compare them with integer constants. *)

From Stdlib Require Import QArith ZArith Lia.
From Stdlib Require Ascii.
From stdpp Require Import base list gmap strings pretty.

Set Warnings "-abstract-large-number,-register-all".
Open Scope Z_scope.

(** Python's [x > c] on numbers. *)
Definition py_gt (x c : Q) : bool := negb (Qle_bool x c).

(** Instants and durations, in microseconds. *)
Abbreviation time := Z (only parsing).

(* ------------------------------------------------------------------ *)
(** ** Query statistics reconciliation ([collect_query_statistics_task]) *)
Module QueryStats.

(** One row returned by [PostgreSQLMonitor.collect_query_statistics]
    (the dict built for each [pg_stat_statements] row). *)
Record stat_row := mk_stat_row {
  query_hash : string;
  query_text : string;
  query_type : string;
  calls : Z;
  total_time : Q;
  mean_time : Q;
  min_time : Q;
  max_time : Q;
  rows_returned : Z;
  shared_blks_hit : Z;
  shared_blks_read : Z;
  shared_blks_written : Z
}.

(** Modelled from the spec: the ORM class [QueryStatistic] is imported by
    [celery_tasks.py] but not declared in [models/profiler.py]; its columns
    are the ones the task reads and writes, as listed in the spec's QueryStat
    (target id, hash, counters, timings, [performance_category], [last_seen]).
    A freshly inserted record gets [last_seen] = insertion time. *)
Record QueryStatistic := mk_qs {
  qs_database_id : Z;
  qs_query_hash : string;
  qs_query_text : string;
  qs_query_type : string;
  qs_calls : Z;
  qs_total_time : Q;
  qs_mean_time : Q;
  qs_min_time : Q;
  qs_max_time : Q;
  qs_rows_returned : Z;
  qs_shared_blks_hit : Z;
  qs_shared_blks_read : Z;
  qs_shared_blks_written : Z;
  qs_performance_category : string;
  qs_last_seen : time
}.

(** The classification block of the update path (lines 205-213). *)
Definition update_category (mean : Q) : string :=
  if py_gt mean 1000 then "critical"
  else if py_gt mean 500 then "slow"
  else if py_gt mean 100 then "normal"
  else "fast".

(** The classification block of the insert path (lines 234-242). *)
Definition insert_category (mean : Q) : string :=
  if py_gt mean 1000 then "critical"
  else if py_gt mean 500 then "slow"
  else if py_gt mean 100 then "normal"
  else "fast".

(** The bands in the spec's words: critical above 1000 ms, slow in
    (500, 1000], normal in (100, 500], fast at or below 100. *)
Definition category_spec (mean : Q) : string :=
  if Qlt_le_dec 1000 mean then "critical"
  else if Qlt_le_dec 500 mean then "slow"
  else if Qlt_le_dec 100 mean then "normal"
  else "fast".

(** [QueryStatistic.query.filter_by(database_id=db_id, query_hash=h)]. *)
Definition matches (db_id : Z) (h : string) (q : QueryStatistic) : bool :=
  bool_decide (qs_database_id q = db_id) && bool_decide (qs_query_hash q = h).

(** [... .first()]: the first record of the table satisfying [p]. *)
Fixpoint first (p : QueryStatistic -> bool) (tbl : list QueryStatistic)
    : option QueryStatistic :=
  match tbl with
  | [] => None
  | q :: tbl' => if p q then Some q else first p tbl'
  end.

(** Mutating the object returned by [.first()]: the same record, in place. *)
Fixpoint update_first (p : QueryStatistic -> bool)
    (f : QueryStatistic -> QueryStatistic) (tbl : list QueryStatistic)
    : list QueryStatistic :=
  match tbl with
  | [] => []
  | q :: tbl' => if p q then f q :: tbl' else q :: update_first p f tbl'
  end.

(** The assignments of the update path (lines 194-213). *)
Definition update_existing (now : time) (stat : stat_row) (e : QueryStatistic)
    : QueryStatistic :=
  {| qs_database_id := qs_database_id e;
     qs_query_hash := qs_query_hash e;
     qs_query_text := qs_query_text e;
     qs_query_type := qs_query_type e;
     qs_calls := calls stat;
     qs_total_time := total_time stat;
     qs_mean_time := mean_time stat;
     qs_min_time := min_time stat;
     qs_max_time := max_time stat;
     qs_rows_returned := rows_returned stat;
     qs_shared_blks_hit := shared_blks_hit stat;
     qs_shared_blks_read := shared_blks_read stat;
     qs_shared_blks_written := shared_blks_written stat;
     qs_last_seen := now;
     qs_performance_category := update_category (mean_time stat) |}.

(** The record built on the insert path (lines 218-242). *)
Definition new_record (db_id : Z) (now : time) (stat : stat_row)
    : QueryStatistic :=
  {| qs_database_id := db_id;
     qs_query_hash := query_hash stat;
     qs_query_text := query_text stat;
     qs_query_type := query_type stat;
     qs_calls := calls stat;
     qs_total_time := total_time stat;
     qs_mean_time := mean_time stat;
     qs_min_time := min_time stat;
     qs_max_time := max_time stat;
     qs_rows_returned := rows_returned stat;
     qs_shared_blks_hit := shared_blks_hit stat;
     qs_shared_blks_read := shared_blks_read stat;
     qs_shared_blks_written := shared_blks_written stat;
     qs_performance_category := insert_category (mean_time stat);
     qs_last_seen := now |}.

(** Counters of the pass: [updated_count], [new_count]. *)
Record pass_state := mk_pass {
  table : list QueryStatistic;
  updated_count : nat;
  new_count : nat
}.

(** One iteration of [for stat in query_stats].  The session autoflushes,
    so a record added earlier in the same pass is found by the query. *)
Definition reconcile_row (db_id : Z) (now : time) (st : pass_state)
    (stat : stat_row) : pass_state :=
  match first (matches db_id (query_hash stat)) (table st) with
  | Some _ =>
      mk_pass (update_first (matches db_id (query_hash stat))
                 (update_existing now stat) (table st))
              (S (updated_count st)) (new_count st)
  | None =>
      mk_pass (table st ++ [new_record db_id now stat])
              (updated_count st) (S (new_count st))
  end.

Definition reconcile (db_id : Z) (now : time) (rows : list stat_row)
    (st : pass_state) : pass_state :=
  foldl (reconcile_row db_id now) st rows.

(** The records of the table with key ([db_id], [h]). *)
Definition key_recs (db_id : Z) (h : string) (tbl : list QueryStatistic)
    : list QueryStatistic :=
  List.filter (matches db_id h) tbl.

(** Result of the task. *)
Inductive task_result :=
  | Skipped (reason : string)
  | Success (updated new : nat).

(** [collect_query_statistics_task(db_id)] once the connection record is
    read ([active]) and the collector has returned [query_stats]; the
    commit makes the new table durable. *)
Definition collect_query_statistics_task (db_id : Z) (active : bool)
    (now : time) (query_stats : list stat_row) (tbl : list QueryStatistic)
    : task_result * list QueryStatistic :=
  if negb active then (Skipped "database_inactive", tbl)
  else
    let st := reconcile db_id now query_stats (mk_pass tbl 0 0) in
    (Success (updated_count st) (new_count st), table st).

End QueryStats.

(* ------------------------------------------------------------------ *)
(** ** Connection pools ([PostgreSQLMonitor]) *)
Module Pools.

Record ConnectionConfig := mk_config {
  host : string;
  port : Z;
  database : string;
  username : string;
  password : string;
  ssl_mode : string
}.

(** An [asyncpg.Pool]; [pool_id] is its object identity. *)
Record Pool := mk_pool {
  pool_id : nat;
  pool_config : ConnectionConfig;
  min_size : Z;
  max_size : Z;
  command_timeout : Z
}.

(** [self.connection_pools], and the supply of fresh pool identities of
    the environment. *)
Record monitor := mk_monitor {
  connection_pools : gmap Z Pool;
  next_pool : nat
}.

Section WithServer.
(** Whether the server described by a configuration accepts the pool's
    connections; when it does not, [asyncpg.create_pool] raises. *)
Variable reachable : ConnectionConfig -> bool.

(** [await asyncpg.create_pool(..., min_size=1, max_size=5,
    command_timeout=30)]: [None] when it raises. *)
Definition create_pool (config : ConnectionConfig) (fresh : nat) : option Pool :=
  if reachable config then Some (mk_pool fresh config 1 5 30) else None.

(** [PostgreSQLMonitor.create_connection_pool(db_id, config)]. *)
Definition create_connection_pool (db_id : Z) (config : ConnectionConfig)
    (m : monitor) : bool * monitor :=
  match create_pool config (next_pool m) with
  | Some pool =>
      (true, mk_monitor (<[db_id := pool]> (connection_pools m)) (S (next_pool m)))
  | None => (false, m)
  end.

(** The pool step of [collect_metrics_task] (lines 83-90): [None] is the
    early return [{'status': 'error', 'reason': 'connection_pool_failed'}]. *)
Definition ensure_pool (db_id : Z) (config : ConnectionConfig) (m : monitor)
    : option monitor :=
  if bool_decide (db_id ∈ dom (connection_pools m)) then Some m
  else
    let '(pool_created, m') := create_connection_pool db_id config m in
    if pool_created then Some m' else None.

End WithServer.
End Pools.

(* ------------------------------------------------------------------ *)
(** ** Metric samples, alerts, persisted models *)
Module Store.

(** A metric sample as the services read it.  [models/profiler.py]
    declares an older, narrower [DatabaseMetric]; the services (and the
    spec's MetricSample) use the columns below, and so does this model.
    [None] is SQL NULL. *)
Record DatabaseMetric := mk_metric {
  dm_database_id : Z;
  cpu_usage : option Q;
  memory_usage : option Q;
  disk_io : option Q;
  active_connections : option Q;
  cache_hit_ratio : option Q;
  avg_query_time : option Q;
  locks_count : option Q;
  deadlocks_count : option Q
}.

(** The fields [_create_anomaly_alert] sets, with the defaults
    [acknowledged = False] and [is_resolved = False] of a new alert. *)
Record Alert := mk_alert {
  alert_database_id : option Z;
  alert_type : string;
  severity : string;
  alert_source : string;
  metric_name : string;
  metric_value : Q;
  threshold_value : Q;
  acknowledged : bool;
  is_resolved : bool
}.

(** Open: neither acknowledged nor resolved. *)
Definition is_open (a : Alert) : bool := negb (acknowledged a) && negb (is_resolved a).

(** The open alerts of a target for one metric name. *)
Definition open_alerts (db : option Z) (name : string) (alerts : list Alert)
    : list Alert :=
  List.filter (fun a => is_open a && bool_decide (alert_database_id a = db)
                        && bool_decide (metric_name a = name)) alerts.

(** A trained estimator or scaler, as [joblib] stores it. *)
Record Artifact := mk_artifact { artifact_id : nat }.

(** Durable model storage: file path to the object [joblib.dump] wrote. *)
Abbreviation storage := (gmap string Artifact) (only parsing).

(** Python's [x or d] on a nullable float column: [None] and [0.0] are
    falsy. *)
Definition py_or (x : option Q) (d : Q) : Q :=
  match x with
  | Some v => if Qeq_bool v 0 then d else v
  | None => d
  end.

(** Python's [if database_id:] on [Optional[int]]. *)
Definition id_truthy (database_id : option Z) : bool :=
  match database_id with Some z => negb (z =? 0) | None => false end.

(** [DatabaseMetric.query], filtered by [database_id] when it is truthy. *)
Definition metrics_of (database_id : option Z) (metrics : list DatabaseMetric)
    : list DatabaseMetric :=
  match database_id with
  | Some z => if id_truthy database_id
              then filter (fun m => bool_decide (dm_database_id m = z)) metrics
              else metrics
  | None => metrics
  end.

Definition MODEL_DIR : string := "ml_models".
Definition MIN_TRAIN_SIZE : nat := 50.
Definition MIN_PREDICTION_SIZE : nat := 10.

Definition db_file (prefix : string) (z : Z) : string :=
  MODEL_DIR +:+ "/" +:+ prefix +:+ "_db_" +:+ pretty z +:+ ".pkl".

Record model_paths := mk_paths {
  load_predictor : string;
  load_scaler : string;
  anomaly_detector : string;
  anomaly_scaler : string;
  query_time_predictor : string;
  query_time_scaler : string
}.

(** [get_model_paths(database_id)]. *)
Definition get_model_paths (database_id : option Z) : model_paths :=
  match database_id with
  | Some z =>
      if id_truthy database_id then
        mk_paths (db_file "load_predictor" z) (db_file "scaler" z)
          (db_file "anomaly_detector" z) (db_file "anomaly_scaler" z)
          (db_file "query_time_predictor" z) (db_file "query_time_scaler" z)
      else
        mk_paths "ml_models/load_predictor.pkl" "ml_models/scaler.pkl"
          "ml_models/anomaly_detector.pkl" "ml_models/anomaly_scaler.pkl"
          "ml_models/query_time_predictor.pkl" "ml_models/query_time_scaler.pkl"
  | None =>
      mk_paths "ml_models/load_predictor.pkl" "ml_models/scaler.pkl"
        "ml_models/anomaly_detector.pkl" "ml_models/anomaly_scaler.pkl"
        "ml_models/query_time_predictor.pkl" "ml_models/query_time_scaler.pkl"
  end.

(** [load_model(model_path)]: [None] when the file does not exist. *)
Definition load_model (disk : storage) (model_path : string) : option Artifact :=
  disk !! model_path.

End Store.

(* ------------------------------------------------------------------ *)
(** ** Model serving ([OptimizedPerformanceAnalyzer]) *)
Module Serving.
Import Store.

(** The analyzer's mutable fields [models_cache] and [last_cache_update]. *)
Record analyzer := mk_analyzer {
  models_cache : gmap string Artifact;
  last_cache_update : gmap string time
}.

Definition init_analyzer : analyzer := mk_analyzer ∅ ∅.

Definition cache_ttl : Z := 3600.

(** [timedelta.seconds] of a duration of [d] microseconds: the seconds
    field of the normalised [timedelta(days, seconds, microseconds)],
    with [0 <= seconds < 86400]; the days are not part of it. *)
Definition timedelta_seconds (d : time) : Z := (d mod 86400000000) / 1000000.

(** The duration in seconds, as [timedelta.total_seconds()] truncated. *)
Definition timedelta_total_seconds (d : time) : Z := d / 1000000.

(** [_get_cached_model(model_key, model_path)], reading [datetime.now()]
    as [now]. *)
Definition get_cached_model (disk : storage) (now : time) (model_key : string)
    (model_path : string) (st : analyzer) : option Artifact * analyzer :=
  let served :=
    match last_cache_update st !! model_key with
    | Some last =>
        if timedelta_seconds (now - last) <? cache_ttl then
          models_cache st !! model_key
        else None
    | None => None
    end in
  match served with
  | Some m => (Some m, st)
  | None =>
      match load_model disk model_path with
      | Some m =>
          (Some m, mk_analyzer (<[model_key := m]> (models_cache st))
                               (<[model_key := now]> (last_cache_update st)))
      | None => (None, st)
      end
  end.

(** Feature vectors ([_prepare_*_features]); [None] when a required
    column is NULL. *)
Definition prepare_load_features (m : DatabaseMetric) : option (list Q) :=
  match cpu_usage m, memory_usage m, disk_io m, active_connections m with
  | Some cpu, Some mem, Some dio, Some act =>
      Some [cpu; mem; dio; act; py_or (cache_hit_ratio m) 95;
            py_or (avg_query_time m) 0; py_or (locks_count m) 0;
            py_or (deadlocks_count m) 0]
  | _, _, _, _ => None
  end.

Definition prepare_anomaly_features (m : DatabaseMetric) : option (list Q) :=
  match cpu_usage m, memory_usage m, active_connections m, avg_query_time m with
  | Some cpu, Some mem, Some act, Some aqt =>
      Some [cpu; mem; act; aqt; py_or (cache_hit_ratio m) 95;
            py_or (locks_count m) 0; py_or (deadlocks_count m) 0]
  | _, _, _, _ => None
  end.

Definition prepare_query_time_features (m : DatabaseMetric) : option (list Q) :=
  match cpu_usage m, memory_usage m, active_connections m with
  | Some cpu, Some mem, Some act =>
      Some [cpu; mem; act; py_or (cache_hit_ratio m) 95; py_or (locks_count m) 0]
  | _, _, _ => None
  end.

(** [_get_historical_metrics_count(database_id)]. *)
Definition get_historical_metrics_count (database_id : option Z)
    (metrics : list DatabaseMetric) : nat :=
  length (metrics_of database_id metrics).

(** [f"{name}_{database_id}" if database_id else f"{name}_global"]. *)
Definition model_key (name : string) (database_id : option Z) : string :=
  match database_id with
  | Some z => if id_truthy database_id then name +:+ "_" +:+ pretty z
              else name +:+ "_global"
  | None => name +:+ "_global"
  end.

(** The model and scaler lookups shared by the three serving methods:
    target-specific keys first, then, when the model is missing and
    [database_id] is truthy, the global ones. *)
Definition lookup_pair (disk : storage) (now : time) (database_id : option Z)
    (model_name scaler_name : string)
    (model_file scaler_file : model_paths -> string) (st : analyzer)
    : option Artifact * option Artifact * analyzer :=
  let paths := get_model_paths database_id in
  let '(model, st1) := get_cached_model disk now (model_key model_name database_id)
                         (model_file paths) st in
  let '(scaler, st2) := get_cached_model disk now (model_key scaler_name database_id)
                          (scaler_file paths) st1 in
  match model with
  | None =>
      if id_truthy database_id then
        let gpaths := get_model_paths None in
        let '(model', st3) := get_cached_model disk now (model_key model_name None)
                                (model_file gpaths) st2 in
        let '(scaler', st4) := get_cached_model disk now (model_key scaler_name None)
                                 (scaler_file gpaths) st3 in
        (model', scaler', st4)
      else (model, scaler, st2)
  | Some _ => (model, scaler, st2)
  end.

(** Result of [detect_anomalies]: the dict it returns. *)
Inductive anomaly_result :=
  | NotDetected (reason : string)            (* {"anomaly_detected": False, "reason": r} *)
  | Scored (anomaly_detected : bool) (anomaly_score threshold : Q)
           (features_analyzed : nat).

Section Estimators.
(** The trained objects' methods, a black box; [None] means the call
    raises. *)
Variable transform : Artifact -> list (list Q) -> option (list (list Q)).
Variable predict : Artifact -> list (list Q) -> option (list Q).
Variable decision_function : Artifact -> list (list Q) -> option (list Q).

(** [model.predict(scaler.transform([features]))[0]]. *)
Definition score_with (call : Artifact -> list (list Q) -> option (list Q))
    (model scaler : Artifact) (features : list Q) : option Q :=
  match transform scaler [features] with
  | Some x_pred =>
      match call model x_pred with Some (p :: _) => Some p | _ => None end
  | None => None
  end.

(** [predict_load(latest_metrics, database_id)]; [None] is Python's
    [None] (the [except] branch included). *)
Definition predict_load (disk : storage) (metrics : list DatabaseMetric)
    (now : time) (latest : DatabaseMetric) (database_id : option Z)
    (st : analyzer) : option Q * analyzer :=
  let '(model, scaler, st') :=
    lookup_pair disk now database_id "load_predictor" "load_scaler"
      load_predictor load_scaler st in
  match model, scaler with
  | Some model, Some scaler =>
      if Nat.ltb (get_historical_metrics_count database_id metrics)
           MIN_PREDICTION_SIZE then (None, st')
      else
        match prepare_load_features latest with
        | None => (None, st')
        | Some features => (score_with predict model scaler features, st')
        end
  | _, _ => (None, st')
  end.

(** [predict_query_time(latest_metrics, database_id)]. *)
Definition predict_query_time (disk : storage) (now : time)
    (latest : DatabaseMetric) (database_id : option Z) (st : analyzer)
    : option Q * analyzer :=
  let '(model, scaler, st') :=
    lookup_pair disk now database_id "query_time_predictor" "query_time_scaler"
      query_time_predictor query_time_scaler st in
  match model, scaler with
  | Some model, Some scaler =>
      match prepare_query_time_features latest with
      | None => (None, st')
      | Some features => (score_with predict model scaler features, st')
      end
  | _, _ => (None, st')
  end.

(** [_create_anomaly_alert(metrics, database_id, anomaly_score)]: the
    alert added and committed. *)
Definition create_anomaly_alert (database_id : option Z) (anomaly_score : Q)
    (alerts : list Alert) : list Alert :=
  alerts ++ [mk_alert database_id "anomaly"
               (if Qlt_le_dec anomaly_score (-1 # 2) then "high" else "medium")
               "ml_model" "performance_anomaly" anomaly_score (-1 # 10)
               false false].

(** [detect_anomalies(latest_metrics, database_id)], with the alert
    table it appends to. *)
Definition detect_anomalies (disk : storage) (now : time)
    (latest : DatabaseMetric) (database_id : option Z)
    (st : analyzer) (alerts : list Alert)
    : anomaly_result * analyzer * list Alert :=
  let '(model, scaler, st') :=
    lookup_pair disk now database_id "anomaly_detector" "anomaly_scaler"
      anomaly_detector anomaly_scaler st in
  match model, scaler with
  | Some model, Some scaler =>
      match prepare_anomaly_features latest with
      | None => (NotDetected "invalid_features", st', alerts)
      | Some features =>
          match transform scaler [features] with
          | None => (NotDetected "error", st', alerts)
          | Some x_pred =>
              match decision_function model x_pred, predict model x_pred with
              | Some (score :: _), Some (label :: _) =>
                  let is_anomaly := Qeq_bool label (-1) in
                  (Scored is_anomaly score 0 (length features), st',
                   if is_anomaly then create_anomaly_alert database_id score alerts
                   else alerts)
              | _, _ => (NotDetected "error", st', alerts)
              end
          end
      end
  | _, _ => (NotDetected "model_not_found", st', alerts)
  end.

End Estimators.
End Serving.

(* ------------------------------------------------------------------ *)
(** ** Model training ([ml_tasks.py]) *)
Module Training.
Import Store.

(** What a training task returns; [Retry] is [raise self.retry(exc=...)]. *)
Inductive train_result :=
  | Insufficient_data                         (* "status": "insufficient_data" *)
  | Insufficient_valid_data                   (* "status": "insufficient_valid_data" *)
  | Trained (model_path : string)             (* "status": "success" *)
  | Retry.

(** The two "too little data" answers. *)
Definition insufficient (r : train_result) : bool :=
  match r with Insufficient_data | Insufficient_valid_data => true | _ => false end.

(** [DatabaseMetric.query.order_by(timestamp.desc())], filtered by
    [database_id] when truthy, [.limit(n).all()]; [metrics] is the table
    in descending timestamp order. *)
Definition historical (database_id : option Z) (n : nat)
    (metrics : list DatabaseMetric) : list DatabaseMetric :=
  take n (metrics_of database_id metrics).

Definition all_some (xs : list (option Q)) : bool :=
  forallb (fun x => match x with Some _ => true | None => false end) xs.

Definition get0 (x : option Q) : Q := match x with Some v => v | None => 0 end.

Section Trainer.
(** The estimators' [fit], a black box; [None] means it raises. *)
Variable fit_scaler : list (list Q) -> option Artifact.
Variable fit_regressor : list (list Q) -> list Q -> option Artifact.
Variable fit_isolation_forest : list (list Q) -> option Artifact.

(** The loop of [train_load_predictor]: feature rows and synthetic load. *)
Definition load_rows (hist : list DatabaseMetric) : list (list Q * Q) :=
  omap (fun m =>
    if all_some [cpu_usage m; memory_usage m; disk_io m; active_connections m;
                 cache_hit_ratio m; avg_query_time m] then
      let cpu := get0 (cpu_usage m) in
      let mem := get0 (memory_usage m) in
      let dio := get0 (disk_io m) in
      let act := get0 (active_connections m) in
      let chr := get0 (cache_hit_ratio m) in
      Some ([cpu; mem; dio; act; chr; get0 (avg_query_time m);
             py_or (locks_count m) 0; py_or (deadlocks_count m) 0],
            (cpu * (3 # 10) + mem * (3 # 10) + (dio / 1000) * (2 # 10)
             + (act / 100) * (1 # 10) + (100 - chr) * (1 # 10))%Q)
    else None) hist.

(** [train_load_predictor(database_id)]: the result and the storage
    after the [joblib.dump] calls. *)
Definition train_load_predictor (database_id : option Z)
    (metrics : list DatabaseMetric) (disk : storage) : train_result * storage :=
  let hist := historical database_id 10000 metrics in
  if Nat.ltb (length hist) MIN_TRAIN_SIZE then (Insufficient_data, disk)
  else
    let rows := load_rows hist in
    if Nat.ltb (length rows) MIN_TRAIN_SIZE then (Insufficient_valid_data, disk)
    else
      match fit_scaler (map fst rows), fit_regressor (map fst rows) (map snd rows) with
      | Some scaler, Some model =>
          let model_path := match database_id with
            | Some z => if id_truthy database_id then db_file "load_predictor" z
                        else "ml_models/load_predictor.pkl"
            | None => "ml_models/load_predictor.pkl" end in
          let scaler_path := match database_id with
            | Some z => if id_truthy database_id then db_file "scaler" z
                        else "ml_models/scaler.pkl"
            | None => "ml_models/scaler.pkl" end in
          (Trained model_path, <[scaler_path := scaler]> (<[model_path := model]> disk))
      | _, _ => (Retry, disk)
      end.

(** The loop of [train_anomaly_detector]. *)
Definition anomaly_rows (hist : list DatabaseMetric) : list (list Q) :=
  omap (fun m =>
    if all_some [cpu_usage m; memory_usage m; active_connections m; avg_query_time m]
    then Some [get0 (cpu_usage m); get0 (memory_usage m);
               get0 (active_connections m); get0 (avg_query_time m);
               py_or (cache_hit_ratio m) 95; py_or (locks_count m) 0;
               py_or (deadlocks_count m) 0]
    else None) hist.

(** [train_anomaly_detector(database_id)]. *)
Definition train_anomaly_detector (database_id : option Z)
    (metrics : list DatabaseMetric) (disk : storage) : train_result * storage :=
  let hist := historical database_id 5000 metrics in
  if Nat.ltb (length hist) MIN_TRAIN_SIZE then (Insufficient_data, disk)
  else
    let rows := anomaly_rows hist in
    if Nat.ltb (length rows) MIN_TRAIN_SIZE then (Insufficient_valid_data, disk)
    else
      match fit_scaler rows, fit_isolation_forest rows with
      | Some scaler, Some model =>
          let '(model_path, scaler_path) := match database_id with
            | Some z => if id_truthy database_id
                        then (db_file "anomaly_detector" z, db_file "anomaly_scaler" z)
                        else ("ml_models/anomaly_detector.pkl", "ml_models/anomaly_scaler.pkl")
            | None => ("ml_models/anomaly_detector.pkl", "ml_models/anomaly_scaler.pkl")
            end in
          (Trained model_path, <[scaler_path := scaler]> (<[model_path := model]> disk))
      | _, _ => (Retry, disk)
      end.

(** The loop of [train_query_time_predictor] (it also drops rows with
    [avg_query_time <= 0]). *)
Definition query_time_rows (hist : list DatabaseMetric) : list (list Q * Q) :=
  omap (fun m =>
    if all_some [cpu_usage m; memory_usage m; active_connections m; avg_query_time m]
       && py_gt (get0 (avg_query_time m)) 0
    then Some ([get0 (cpu_usage m); get0 (memory_usage m);
                get0 (active_connections m); py_or (cache_hit_ratio m) 95;
                py_or (locks_count m) 0], get0 (avg_query_time m))
    else None) hist.

(** [train_query_time_predictor(database_id)]. *)
Definition train_query_time_predictor (database_id : option Z)
    (metrics : list DatabaseMetric) (disk : storage) : train_result * storage :=
  let hist := historical database_id 5000 metrics in
  if Nat.ltb (length hist) MIN_TRAIN_SIZE then (Insufficient_data, disk)
  else
    let rows := query_time_rows hist in
    if Nat.ltb (length rows) MIN_TRAIN_SIZE then (Insufficient_valid_data, disk)
    else
      match fit_scaler (map fst rows), fit_regressor (map fst rows) (map snd rows) with
      | Some scaler, Some model =>
          let '(model_path, scaler_path) := match database_id with
            | Some z => if id_truthy database_id
                        then (db_file "query_time_predictor" z, db_file "query_time_scaler" z)
                        else ("ml_models/query_time_predictor.pkl", "ml_models/query_time_scaler.pkl")
            | None => ("ml_models/query_time_predictor.pkl", "ml_models/query_time_scaler.pkl")
            end in
          (Trained model_path, <[scaler_path := scaler]> (<[model_path := model]> disk))
      | _, _ => (Retry, disk)
      end.

End Trainer.
End Training.

(* ------------------------------------------------------------------ *)
(** ** Cache layer ([cache_service.py]) *)
Module Cache.
Import Stdlib.Strings.Ascii.

(** The Python values a JSON document decodes to: [None], [bool], [int],
    [str], [list] and [dict] with string keys (kept in insertion order). *)
Inductive pyval :=
  | PNone
  | PBool (b : bool)
  | PInt (z : Z)
  | PStr (s : string)
  | PList (l : list pyval)
  | PDict (kvs : list (string * pyval)).

(** Python truthiness. *)
Definition truthy (v : pyval) : bool :=
  match v with
  | PNone => false
  | PBool b => b
  | PInt z => negb (z =? 0)
  | PStr s => negb (bool_decide (s = EmptyString))
  | PList l => negb (bool_decide (l = []))
  | PDict kvs => negb (bool_decide (kvs = []))
  end.

(** The double quote, backslash and newline characters. *)
Definition dq : Ascii.ascii := Ascii.ascii_of_nat 34.
Definition bs : Ascii.ascii := Ascii.ascii_of_nat 92.
Definition nl : Ascii.ascii := Ascii.ascii_of_nat 10.

(** String escaping of [json.dumps] for the characters that need it (the
    double quote, the backslash, the newline); other characters are written
    as they are. *)
Fixpoint escape (s : string) : string :=
  match s with
  | EmptyString => EmptyString
  | String c s' =>
      if Ascii.eqb c dq then String bs (String dq (escape s'))
      else if Ascii.eqb c bs then String bs (String bs (escape s'))
      else if Ascii.eqb c nl then String bs (String "n"%char (escape s'))
      else String c (escape s')
  end.

Definition quote (s : string) : string := String dq (escape s +:+ String dq EmptyString).

(** [json.dumps(value)] with the default separators [", "] and [": "]. *)
Fixpoint dumps (v : pyval) : string :=
  match v with
  | PNone => "null"
  | PBool true => "true"
  | PBool false => "false"
  | PInt z => pretty z
  | PStr s => quote s
  | PList l =>
      "[" +:+ (fix items (l : list pyval) : string :=
                 match l with
                 | [] => EmptyString
                 | [x] => dumps x
                 | x :: l' => dumps x +:+ ", " +:+ items l'
                 end) l +:+ "]"
  | PDict kvs =>
      "{" +:+ (fix items (kvs : list (string * pyval)) : string :=
                 match kvs with
                 | [] => EmptyString
                 | [(k, x)] => quote k +:+ ": " +:+ dumps x
                 | (k, x) :: kvs' => quote k +:+ ": " +:+ dumps x +:+ ", " +:+ items kvs'
                 end) kvs +:+ "}"
  end.

Definition is_ws (c : Ascii.ascii) : bool :=
  Ascii.eqb c " "%char || Ascii.eqb c nl
  || Ascii.eqb c (Ascii.ascii_of_nat 13) || Ascii.eqb c (Ascii.ascii_of_nat 9).

Fixpoint skip_ws (s : list Ascii.ascii) : list Ascii.ascii :=
  match s with c :: s' => if is_ws c then skip_ws s' else s | [] => [] end.

Definition digit_val (c : Ascii.ascii) : option Z :=
  let n := Z.of_nat (Ascii.nat_of_ascii c) - 48 in
  if (0 <=? n) && (n <=? 9) then Some n else None.

(** The digits of an integer literal, accumulated into [acc]. *)
Fixpoint parse_digits (s : list Ascii.ascii) (acc : Z) : Z * list Ascii.ascii :=
  match s with
  | c :: s' => match digit_val c with
               | Some d => parse_digits s' (acc * 10 + d)
               | None => (acc, s)
               end
  | [] => (acc, s)
  end.

Definition parse_int (s : list Ascii.ascii) : option (Z * list Ascii.ascii) :=
  match s with
  | "-"%char :: c :: s' =>
      match digit_val c with
      | Some d => let '(n, r) := parse_digits s' d in Some (- n, r)
      | None => None
      end
  | c :: s' =>
      match digit_val c with
      | Some d => Some (parse_digits s' d)
      | None => None
      end
  | [] => None
  end.

(** The body of a string literal after its opening quote. *)
Fixpoint parse_string (s : list Ascii.ascii) (acc : list Ascii.ascii)
    : option (string * list Ascii.ascii) :=
  match s with
  | c :: s' =>
      if Ascii.eqb c dq then Some (String.string_of_list_ascii (rev acc), s')
      else if Ascii.eqb c bs then
        match s' with
        | e :: s'' =>
            if Ascii.eqb e dq then parse_string s'' (dq :: acc)
            else if Ascii.eqb e bs then parse_string s'' (bs :: acc)
            else if Ascii.eqb e "n"%char then parse_string s'' (nl :: acc)
            else None
        | [] => None
        end
      else parse_string s' (c :: acc)
  | [] => None
  end.

(** [json.loads] as a recursive-descent parser; [fuel] bounds the nesting. *)
Fixpoint parse_value (fuel : nat) (s : list Ascii.ascii) : option (pyval * list Ascii.ascii) :=
  match fuel with
  | O => None
  | S fuel' =>
      match skip_ws s with
      | "n"%char :: "u"%char :: "l"%char :: "l"%char :: r => Some (PNone, r)
      | "t"%char :: "r"%char :: "u"%char :: "e"%char :: r => Some (PBool true, r)
      | "f"%char :: "a"%char :: "l"%char :: "s"%char :: "e"%char :: r =>
          Some (PBool false, r)
      | "["%char :: r =>
          match skip_ws r with
          | "]"%char :: r' => Some (PList [], r')
          | _ => match parse_items fuel' r [] with
                 | Some (xs, r') => Some (PList xs, r')
                 | None => None
                 end
          end
      | "{"%char :: r =>
          match skip_ws r with
          | "}"%char :: r' => Some (PDict [], r')
          | _ => match parse_members fuel' r [] with
                 | Some (kvs, r') => Some (PDict kvs, r')
                 | None => None
                 end
          end
      | c :: r =>
          if Ascii.eqb c dq then
            match parse_string r [] with
            | Some (str, r') => Some (PStr str, r')
            | None => None
            end
          else
            match parse_int (c :: r) with
            | Some (z, r') => Some (PInt z, r')
            | None => None
            end
      | [] => None
      end
  end
(** Array elements, up to and including the closing bracket. *)
with parse_items (fuel : nat) (s : list Ascii.ascii) (acc : list pyval)
    : option (list pyval * list Ascii.ascii) :=
  match fuel with
  | O => None
  | S fuel' =>
      match parse_value fuel' s with
      | Some (v, r) =>
          match skip_ws r with
          | ","%char :: r' => parse_items fuel' r' (v :: acc)
          | "]"%char :: r' => Some (rev (v :: acc), r')
          | _ => None
          end
      | None => None
      end
  end
(** Object members, up to and including the closing brace. *)
with parse_members (fuel : nat) (s : list Ascii.ascii) (acc : list (string * pyval))
    : option (list (string * pyval) * list Ascii.ascii) :=
  match fuel with
  | O => None
  | S fuel' =>
      match skip_ws s with
      | c :: r =>
          if negb (Ascii.eqb c dq) then None else
          match parse_string r [] with
          | Some (k, r1) =>
              match skip_ws r1 with
              | ":"%char :: r2 =>
                  match parse_value fuel' r2 with
                  | Some (v, r3) =>
                      match skip_ws r3 with
                      | ","%char :: r4 => parse_members fuel' r4 ((k, v) :: acc)
                      | "}"%char :: r4 => Some (rev ((k, v) :: acc), r4)
                      | _ => None
                      end
                  | None => None
                  end
              | _ => None
              end
          | None => None
          end
      | [] => None
      end
  end.

(** [json.loads(text)]: [None] when it raises. *)
Definition loads (text : string) : option pyval :=
  let s := String.list_ascii_of_string text in
  match parse_value (S (length s)) s with
  | Some (v, r) => if bool_decide (skip_ws r = []) then Some v else None
  | None => None
  end.

(** The Redis server: reachable or not, and its keys with their values
    and expiry instants. *)
Record redis := mk_redis {
  redis_up : bool;
  redis_kv : gmap string (string * time)
}.

(** [self.redis.get(key)] at instant [now]: a live key's value. *)
Definition redis_get (r : redis) (key : string) (now : time) : option string :=
  match redis_kv r !! key with
  | Some (value, expiry) => if now <? expiry then Some value else None
  | None => None
  end.

Definition default_timeout : Z := 300.

(** [CacheService.get(key)]; a failure of Redis or of [json.loads] is
    caught and gives [None]. *)
Definition cache_get (r : redis) (key : string) (now : time) : pyval :=
  if negb (redis_up r) then PNone
  else
    match redis_get r key now with
    | Some value =>
        if negb (bool_decide (value = EmptyString)) then
          match loads value with Some v => v | None => PNone end
        else PNone
    | None => PNone
    end.

(** [timeout or self.default_timeout]. *)
Definition effective_timeout (timeout : option Z) : Z :=
  match timeout with
  | Some t => if t =? 0 then default_timeout else t
  | None => default_timeout
  end.

(** [CacheService.set(key, value, timeout)]: [timeout or self.default_timeout],
    then [setex]. *)
Definition cache_set (r : redis) (key : string) (value : pyval)
    (timeout : option Z) (now : time) : bool * redis :=
  let timeout' := effective_timeout timeout in
  if negb (redis_up r) then (false, r)
  else (true, mk_redis true (<[key := (dumps value, now + timeout' * 1000000)]>
                               (redis_kv r))).

(** The wrapper built by [cache_response(timeout)] around a function whose
    call returns [result]: the value returned, whether the function ran,
    and the new Redis state. *)
Definition cache_response (timeout : Z) (key : string) (result : pyval)
    (r : redis) (now : time) : pyval * bool * redis :=
  let cached_result := cache_get r key now in
  if truthy cached_result then (cached_result, false, r)
  else
    let '(_, r') := cache_set r key result (Some timeout) now in
    (result, true, r').

End Cache.

(* ------------------------------------------------------------------ *)
(** ** The rest of [PostgreSQLMonitor] ([postgresql_monitor.py]) *)
Module Monitor.
Import Stdlib.Strings.Ascii.
Import Pools.

(** [PostgreSQLMonitor.close_connection_pool(db_id)]. *)
Definition close_connection_pool (db_id : Z) (m : monitor) : monitor :=
  if bool_decide (db_id ∈ dom (connection_pools m)) then
    mk_monitor (delete db_id (connection_pools m)) (next_pool m)
  else m.

(** [str.isspace()] on the characters with codes below 256: tab, newline,
    vertical tab, form feed, carriage return, the separators 28-31, the
    space, NEL (133) and the no-break space (160). *)
Definition py_isspace (c : Ascii.ascii) : bool :=
  let n := Ascii.nat_of_ascii c in
  (Nat.leb 9 n && Nat.leb n 13) || (Nat.leb 28 n && Nat.leb n 32)
  || Nat.eqb n 133 || Nat.eqb n 160.

Fixpoint lstrip (s : list Ascii.ascii) : list Ascii.ascii :=
  match s with
  | c :: s' => if py_isspace c then lstrip s' else s
  | [] => []
  end.

(** [str.strip()]: leading and trailing whitespace removed. *)
Definition py_strip (s : list Ascii.ascii) : list Ascii.ascii :=
  rev (lstrip (rev (lstrip s))).

(** [str.upper()] on one character with code below 256: the ASCII and
    Latin-1 small letters become capitals, [ß] becomes [SS].  The capitals
    of [µ] (181) and [ÿ] (255) lie outside Latin-1; like the characters
    themselves they are not ASCII letters, which is all the [startswith]
    tests below observe, so they are kept as they are. *)
Definition upper_char (c : Ascii.ascii) : list Ascii.ascii :=
  let n := Ascii.nat_of_ascii c in
  if Nat.leb 97 n && Nat.leb n 122 then [Ascii.ascii_of_nat (n - 32)]
  else if Nat.eqb n 223 then ["S"%char; "S"%char]
  else if Nat.leb 224 n && Nat.leb n 254 && negb (Nat.eqb n 247)
  then [Ascii.ascii_of_nat (n - 32)]
  else [c].

Definition py_upper (s : list Ascii.ascii) : list Ascii.ascii :=
  List.flat_map upper_char s.

(** [s.startswith(p)]. *)
Fixpoint startswith (p s : list Ascii.ascii) : bool :=
  match p, s with
  | [], _ => true
  | c :: p', d :: s' => Ascii.eqb c d && startswith p' s'
  | _ :: _, [] => false
  end.

Definition kw (k : string) : list Ascii.ascii := String.list_ascii_of_string k.

(** [PostgreSQLMonitor._detect_query_type(query)]. *)
Definition detect_query_type (query : string) : string :=
  let query_upper := py_upper (py_strip (String.list_ascii_of_string query)) in
  if startswith (kw "SELECT") query_upper then "SELECT"
  else if startswith (kw "INSERT") query_upper then "INSERT"
  else if startswith (kw "UPDATE") query_upper then "UPDATE"
  else if startswith (kw "DELETE") query_upper then "DELETE"
  else if startswith (kw "CREATE") query_upper then "CREATE"
  else if startswith (kw "ALTER") query_upper then "ALTER"
  else if startswith (kw "DROP") query_upper then "DROP"
  else "OTHER".

(** A row of the [pg_stat_statements] query of [collect_query_statistics]
    (the server applies its [WHERE], [ORDER BY] and [LIMIT 100]). *)
Record pgss_row := mk_pgss {
  ps_query : string;
  ps_calls : Z;
  ps_total_time : Q;
  ps_mean_time : Q;
  ps_min_time : Q;
  ps_max_time : Q;
  ps_rows : Z;
  ps_shared_blks_hit : Z;
  ps_shared_blks_read : Z;
  ps_shared_blks_written : Z;
  ps_shared_blks_dirtied : Z
}.

(** The rows of the statistics queries of [collect_performance_metrics]. *)
Record pg_snapshot := mk_snapshot {
  s_active_connections : Z;
  s_idle_connections : Z;
  s_max_connections : Z;
  s_total_transactions : Z;
  s_total_tuples : Z;
  s_cache_hit_ratio : Q;
  s_locks_count : Z;
  s_waiting_locks : Z;
  s_database_size : Z;
  s_buffer_cache_hit_ratio : option Q   (* NULL when the tables have no rows *)
}.

(** A value of the metrics dict. *)
Inductive mval :=
  | MInt (z : Z)
  | MNum (q : Q)
  | MText (s : string).

Section Server.
(** What the server answers through a pool; [None] means the query (or
    acquiring a connection) raises. *)
Variable extension_exists : Pool -> option bool.
Variable fetch_stat_statements : Pool -> option (list pgss_row).
Variable snapshot : Pool -> option pg_snapshot.
(** [hashlib.md5(s.encode()).hexdigest()] and [datetime.isoformat()]. *)
Variable md5_hexdigest : string -> string.
Variable isoformat : time -> string.

(** The dict built for one [pg_stat_statements] row; its [timestamp]
    entry is not read by the task and is left out. *)
Definition stat_of_row (row : pgss_row) : QueryStats.stat_row :=
  QueryStats.mk_stat_row (md5_hexdigest (ps_query row)) (ps_query row)
    (detect_query_type (ps_query row)) (ps_calls row) (ps_total_time row)
    (ps_mean_time row) (ps_min_time row) (ps_max_time row) (ps_rows row)
    (ps_shared_blks_hit row) (ps_shared_blks_read row)
    (ps_shared_blks_written row).

(** [PostgreSQLMonitor.collect_query_statistics(db_id)]. *)
Definition collect_query_statistics (m : monitor) (db_id : Z)
    : list QueryStats.stat_row :=
  match connection_pools m !! db_id with
  | None => []
  | Some pool =>
      match extension_exists pool with
      | Some true =>
          match fetch_stat_statements pool with
          | Some query_stats => map stat_of_row query_stats
          | None => []
          end
      | _ => []
      end
  end.

(** The dict [metrics], in insertion order. *)
Definition metrics_dict (s : pg_snapshot) (now : time) : list (string * mval) :=
  [("active_connections", MInt (s_active_connections s));
   ("idle_connections", MInt (s_idle_connections s));
   ("max_connections", MInt (s_max_connections s));
   ("total_transactions", MInt (s_total_transactions s));
   ("total_tuples", MInt (s_total_tuples s));
   ("cache_hit_ratio", MNum (s_cache_hit_ratio s));
   ("locks_count", MInt (s_locks_count s));
   ("waiting_locks", MInt (s_waiting_locks s));
   ("database_size", MInt (s_database_size s))]
  ++ (match s_buffer_cache_hit_ratio s with   (* [if ... and ratio:] *)
      | Some q => if negb (Qeq_bool q 0)
                  then [("buffer_cache_hit_ratio", MNum q)] else []
      | None => []
      end)
  ++ [("timestamp", MText (isoformat now))].

(** [PostgreSQLMonitor.collect_performance_metrics(db_id)]. *)
Definition collect_performance_metrics (m : monitor) (db_id : Z) (now : time)
    : option (list (string * mval)) :=
  match connection_pools m !! db_id with
  | None => None
  | Some pool =>
      match snapshot pool with
      | Some s => Some (metrics_dict s now)
      | None => None
      end
  end.

End Server.
End Monitor.

(* ------------------------------------------------------------------ *)
(** ** Redis operations and cache keys *)
Module RedisOps.
Import Stdlib.Strings.Ascii.
Import Cache.

(** [redis.setex(key, ttl, value)]; [None] when Redis is unreachable
    (the call raises). *)
Definition setex (r : redis) (key : string) (ttl : Z) (value : string)
    (now : time) : option redis :=
  if redis_up r
  then Some (mk_redis true (<[key := (value, now + ttl * 1000000)]> (redis_kv r)))
  else None.

(** [redis.delete] on a list of keys: the number of live keys removed. *)
Definition redis_delete (r : redis) (keys : list string) (now : time)
    : option (nat * redis) :=
  if redis_up r then
    Some (length (List.filter (fun k => if redis_get r k now then true else false)
                    (remove_dups keys)),
          mk_redis true (foldr delete (redis_kv r) keys))
  else None.

Section Glob.
(** Redis's glob matching of [KEYS] and [SCAN MATCH]. *)
Variable glob_match : string -> string -> bool.

(** [redis.keys(pattern)]: the live keys matching [pattern]. *)
Definition redis_keys (r : redis) (pattern : string) (now : time) : list string :=
  List.filter (fun k => glob_match pattern k && if redis_get r k now then true else false)
    (map fst (map_to_list (redis_kv r))).

(** [CacheService.delete(key)]: the count, or [False] (here [None]) when
    Redis raises. *)
Definition cache_delete (r : redis) (key : string) (now : time)
    : option nat * redis :=
  match redis_delete r [key] now with
  | Some (n, r') => (Some n, r')
  | None => (None, r)
  end.

(** [CacheService.delete_pattern(pattern)]: the count of removed keys,
    [0] when none matches or Redis raises. *)
Definition delete_pattern (r : redis) (pattern : string) (now : time)
    : nat * redis :=
  if negb (redis_up r) then (0%nat, r)
  else
    let keys := redis_keys r pattern now in
    if bool_decide (keys = []) then (0%nat, r)
    else match redis_delete r keys now with
         | Some (n, r') => (n, r')
         | None => (0%nat, r)
         end.

(** [for key in redis_client.scan_iter(match=pattern): redis_client.delete(key)]. *)
Definition scan_delete (r : redis) (pattern : string) (now : time) : option redis :=
  if negb (redis_up r) then None
  else Some (mk_redis true (foldr delete (redis_kv r) (redis_keys r pattern now))).

End Glob.

(** [hashlib.md5(...).hexdigest()] gives 32 lowercase hexadecimal digits. *)
Definition hex_digit (c : Ascii.ascii) : bool :=
  let n := Ascii.nat_of_ascii c in
  (Nat.leb 48 n && Nat.leb n 57) || (Nat.leb 97 n && Nat.leb n 102).

Definition is_hexdigest (s : string) : bool :=
  Nat.eqb (String.length s) 32 && forallb hex_digit (String.list_ascii_of_string s).

(** [_generate_cache_key(func_name, request)]; [args_repr] is
    [f"{sorted(request.args.items())}"], [None] when [request.args] is empty. *)
Definition key_data (func_name url method : string) (args_repr : option string)
    : string :=
  func_name +:+ ":" +:+ url +:+ ":" +:+ method
  +:+ match args_repr with Some a => ":" +:+ a | None => EmptyString end.

Definition generate_cache_key (md5_hexdigest : string -> string)
    (func_name url method : string) (args_repr : option string) : string :=
  md5_hexdigest (key_data func_name url method args_repr).

End RedisOps.

(* ------------------------------------------------------------------ *)
(** ** The other Celery tasks ([celery_tasks.py]) *)
Module Tasks.
Import Stdlib.Strings.Ascii.
Import Pools Store Cache Monitor RedisOps.

(** The columns of a [DatabaseConnection] the tasks read and write. *)
Record DatabaseConnection := mk_conn {
  dc_host : string;
  dc_port : Z;
  dc_database : string;
  dc_username : string;
  dc_password_encrypted : string;
  dc_ssl_mode : string;
  dc_is_active : bool;
  dc_auto_monitoring : bool;
  connection_status : string;
  last_connected : option time
}.

Definition set_status (status : string) (c : DatabaseConnection) : DatabaseConnection :=
  mk_conn (dc_host c) (dc_port c) (dc_database c) (dc_username c)
    (dc_password_encrypted c) (dc_ssl_mode c) (dc_is_active c)
    (dc_auto_monitoring c) status (last_connected c).

Definition set_connected (now : time) (c : DatabaseConnection) : DatabaseConnection :=
  mk_conn (dc_host c) (dc_port c) (dc_database c) (dc_username c)
    (dc_password_encrypted c) (dc_ssl_mode c) (dc_is_active c)
    (dc_auto_monitoring c) "connected" (Some now).

(** What [collect_metrics_task] reads and writes: the connection table,
    the monitor's pools, the metric table (timestamp and row, in insertion
    order) and Redis. *)
Record world := mk_world {
  conns : gmap Z DatabaseConnection;
  mon : monitor;
  metric_table : list (time * DatabaseMetric);
  rds : redis
}.

(** [metrics.get(key)]. *)
Fixpoint dict_get (d : list (string * mval)) (key : string) : option mval :=
  match d with
  | [] => None
  | (k, v) :: d' => if bool_decide (k = key) then Some v else dict_get d' key
  end.

(** A dict value stored in a numeric column.  ([MText] is only the
    [timestamp] entry, which no numeric column reads.) *)
Definition num_of (v : option mval) : option Q :=
  match v with
  | Some (MInt z) => Some (inject_Z z)
  | Some (MNum q) => Some q
  | Some (MText _) | None => None
  end.

(** The [PerformanceMetric] (an alias of [DatabaseMetric]) built at lines
    102-124, on the columns the services read; [disk_io] is not passed. *)
Definition stored_metric (db_id : Z) (metrics : list (string * mval)) : DatabaseMetric :=
  mk_metric db_id
    (num_of (dict_get metrics "cpu_usage"))
    (num_of (dict_get metrics "memory_usage"))
    None
    (num_of (dict_get metrics "active_connections"))
    (num_of (dict_get metrics "cache_hit_ratio"))
    (num_of (dict_get metrics "avg_query_time"))
    (num_of (dict_get metrics "locks_count"))
    (num_of (dict_get metrics "deadlocks_count")).

(** What [collect_metrics_task] returns. *)
Inductive metrics_task_result :=
  | MSkipped (reason : string)
  | MError (reason : string)
  | MSuccess (metrics_count : nat)
  | MFailed.                       (* the [except] branch: {'status': 'error', 'error': ...} *)

Definition latest_metrics_key (db_id : Z) : string := "latest_metrics:" +:+ pretty db_id.
Definition dashboard_key (db_id : Z) : string := "dashboard:" +:+ pretty db_id.
Definition queries_pattern (db_id : Z) : string := "queries:" +:+ pretty db_id +:+ ":*".

Section Collect.
Variable reachable : ConnectionConfig -> bool.
Variable snapshot : Pool -> option pg_snapshot.
Variable isoformat : time -> string.
(** [repr] of a dict value. *)
Variable py_repr : mval -> string.

(** [str(metrics)]. *)
Definition str_dict (d : list (string * mval)) : string :=
  "{" +:+ String.concat ", " (map (fun '(k, v) => "'" +:+ k +:+ "': " +:+ py_repr v) d)
  +:+ "}".

(** [collect_metrics_task(db_id)] at instant [now]. *)
Definition collect_metrics_task (db_id : Z) (now : time) (w : world)
    : metrics_task_result * world :=
  match conns w !! db_id with
  | None => (MSkipped "database_inactive", w)
  | Some c =>
      if negb (dc_is_active c) then (MSkipped "database_inactive", w)
      else
        let config := mk_config (dc_host c) (dc_port c) (dc_database c)
                        (dc_username c) (dc_password_encrypted c) (dc_ssl_mode c) in
        match ensure_pool reachable db_id config (mon w) with
        | None => (MError "connection_pool_failed", w)
        | Some m =>
            match collect_performance_metrics snapshot isoformat m db_id now with
            | None => (MError "metrics_collection_failed",
                       mk_world (conns w) m (metric_table w) (rds w))
            | Some metrics =>
                let table' := metric_table w ++ [(now, stored_metric db_id metrics)] in
                let c' := set_connected now c in
                match setex (rds w) (latest_metrics_key db_id) 300 (str_dict metrics) now with
                | Some r1 =>
                    match redis_delete r1 [dashboard_key db_id] now with
                    | Some (_, r2) =>
                        (MSuccess (length metrics),
                         mk_world (<[db_id := c']> (conns w)) m table' r2)
                    | None =>
                        (MFailed, mk_world (<[db_id := set_status "error" c']> (conns w))
                                    m table' r1)
                    end
                | None =>
                    (MFailed, mk_world (<[db_id := set_status "error" c']> (conns w))
                                m table' (rds w))
                end
            end
        end
  end.

(** Successive runs of [collect_metrics_task], as the scheduler issues
    them: (database id, instant) in execution order. *)
Fixpoint run_collections (runs : list (Z * time)) (w : world) : world :=
  match runs with
  | [] => w
  | (db_id, now) :: runs' => run_collections runs' (snd (collect_metrics_task db_id now w))
  end.

End Collect.

(** [schedule_monitoring_tasks()]: the count and the [apply_async] calls
    (task, database id, countdown), over the active databases with
    automatic monitoring. *)
Definition schedule_monitoring_tasks (cs : gmap Z DatabaseConnection)
    : nat * list (string * Z * Z) :=
  let active_databases :=
    List.filter (fun '(_, c) => dc_is_active c && dc_auto_monitoring c) (map_to_list cs) in
  (length active_databases,
   List.flat_map (fun '(i, _) =>
     [("collect_metrics_task", i, 0); ("collect_query_statistics_task", i, 300);
      ("analyze_performance_task", i, 600)]) active_databases).

(** A recommendation row, on the columns the cleanup reads. *)
Record RecommendationRow := mk_rec_row {
  rec_id : Z;
  is_applied : bool;
  applied_at : option time
}.

Definition day : Z := 86400000000.

(** SQL [column < bound]: NULL compares as unknown and is not selected. *)
Definition sql_lt (x : option time) (bound : time) : bool :=
  match x with Some t => t <? bound | None => false end.

Record cleanup_tables := mk_tables {
  t_metrics : list (time * DatabaseMetric);
  t_alerts : list (Alert * option time);          (* with [resolved_at] *)
  t_recommendations : list RecommendationRow
}.

(** [cleanup_old_data_task()]: the three counts and the tables after the
    three [DELETE]s and the commit. *)
Definition cleanup_old_data_task (now : time) (t : cleanup_tables)
    : (nat * nat * nat) * cleanup_tables :=
  let cutoff_date := now - 30 * day in
  let old_metric := fun (r : time * DatabaseMetric) => fst r <? cutoff_date in
  let old_alert := fun (a : Alert * option time) =>
    is_resolved (fst a) && sql_lt (snd a) (now - 7 * day) in
  let old_rec := fun (r : RecommendationRow) =>
    is_applied r && sql_lt (applied_at r) (now - 30 * day) in
  ((length (List.filter old_metric (t_metrics t)),
    length (List.filter old_alert (t_alerts t)),
    length (List.filter old_rec (t_recommendations t))),
   mk_tables (List.filter (fun r => negb (old_metric r)) (t_metrics t))
             (List.filter (fun a => negb (old_alert a)) (t_alerts t))
             (List.filter (fun r => negb (old_rec r)) (t_recommendations t))).

End Tasks.

(* ------------------------------------------------------------------ *)
(** ** Recommendations and trends ([OptimizedPerformanceAnalyzer]) *)
Module Recs.
Import Store Serving.

(** The recommendation dicts of [generate_ml_recommendations] and
    [_analyze_performance_trends], by the branch that builds them; each
    branch has fixed [type], [priority], [category], [impact], [effort]
    and title, and formats the number it carries into the description. *)
Inductive recommendation :=
  | HighPredictedLoad (predicted_load : Q)
  | AnomalyDetected (anomaly_score : Q)
  | QueryTimeIncrease (predicted_query_time avg_query_time : Q)
  | CpuTrend (cpu_trend : Q)
  | MemoryTrend (memory_trend : Q).

Definition priority (r : recommendation) : string :=
  match r with
  | HighPredictedLoad _ => "high"
  | AnomalyDetected _ => "critical"
  | QueryTimeIncrease _ _ | CpuTrend _ | MemoryTrend _ => "medium"
  end.

Definition sum_q (l : list Q) : Q := foldr Qplus 0%Q l.

(** [np.polyfit(range(n), ys, 1)[0]]: the slope of the least-squares line
    through the points [(i, ys[i])]. *)
Definition polyfit_slope (ys : list Q) : Q :=
  let n := inject_Z (Z.of_nat (length ys)) in
  let xs := map (fun i => inject_Z (Z.of_nat i)) (seq 0 (length ys)) in
  let sx := sum_q xs in
  let sy := sum_q ys in
  let sxy := sum_q (zip_with Qmult xs ys) in
  let sxx := sum_q (map (fun x => x * x)%Q xs) in
  ((n * sxy - sx * sy) / (n * sxx - sx * sx))%Q.

Definition hour : Z := 3600000000.

(** The rows of [database_id] with [timestamp >= since], by increasing
    timestamp; [table] is the metric table by decreasing timestamp. *)
Definition window (database_id : Z) (since : time)
    (table : list (time * DatabaseMetric)) : list DatabaseMetric :=
  rev (map snd (List.filter (fun '(t, m) =>
         bool_decide (dm_database_id m = database_id) && (since <=? t)) table)).

(** [_analyze_performance_trends(database_id)], reading [datetime.now()]
    as [now]. *)
Definition analyze_performance_trends (database_id : Z) (now : time)
    (table : list (time * DatabaseMetric)) : list recommendation :=
  let metrics := window database_id (now - 24 * hour) table in
  if Nat.ltb (length metrics) 10 then []
  else
    let cpu_values := omap cpu_usage metrics in
    let cpu_recs :=
      if Nat.leb 10 (length cpu_values) then
        let cpu_trend := polyfit_slope cpu_values in
        if py_gt cpu_trend 2 then [CpuTrend cpu_trend] else []
      else [] in
    let memory_values := omap memory_usage metrics in
    let memory_recs :=
      if Nat.leb 10 (length memory_values) then
        let memory_trend := polyfit_slope memory_values in
        if py_gt memory_trend 1 then [MemoryTrend memory_trend] else []
      else [] in
    cpu_recs ++ memory_recs.

(** [if x and x > c] on an optional float. *)
Definition truthy_gt (x : option Q) (c : Q) : bool :=
  match x with Some v => negb (Qeq_bool v 0) && py_gt v c | None => false end.

Section Estimators.
Variable transform : Artifact -> list (list Q) -> option (list (list Q)).
Variable predict : Artifact -> list (list Q) -> option (list Q).
Variable decision_function : Artifact -> list (list Q) -> option (list Q).

(** [generate_ml_recommendations(database_id)]: the list returned, the
    analyzer's caches and the alert table.  [table] is the metric table by
    decreasing timestamp.  The [except] branch returns [[]] and keeps
    what the calls before the exception did. *)
Definition generate_ml_recommendations (disk : storage) (now : time)
    (table : list (time * DatabaseMetric)) (database_id : Z)
    (st : analyzer) (alerts : list Alert)
    : list recommendation * analyzer * list Alert :=
  match List.filter (fun m => bool_decide (dm_database_id m = database_id))
          (map snd table) with
  | [] => ([], st, alerts)
  | latest_metrics :: _ =>
      let '(predicted_load, st1) :=
        predict_load transform predict disk (map snd table) now latest_metrics
          (Some database_id) st in
      let recs1 := match predicted_load with
                   | Some p => if truthy_gt (Some p) 80 then [HighPredictedLoad p] else []
                   | None => []
                   end in
      let '(anomaly_result, st2, alerts2) :=
        detect_anomalies transform predict decision_function disk now latest_metrics
          (Some database_id) st1 alerts in
      let recs2 := recs1 ++ match anomaly_result with
                            | Scored true score _ _ => [AnomalyDetected score]
                            | _ => []
                            end in
      let '(predicted_query_time, st3) :=
        predict_query_time transform predict disk now latest_metrics
          (Some database_id) st2 in
      match predicted_query_time with
      | Some p =>
          if Qeq_bool p 0 then
            (recs2 ++ analyze_performance_trends database_id now table, st3, alerts2)
          else
            match avg_query_time latest_metrics with
            | None => ([], st3, alerts2)       (* [None * 1.5] raises [TypeError] *)
            | Some a =>
                let recs3 := recs2 ++ (if py_gt p (a * (3 # 2)) then
                                         [QueryTimeIncrease p a] else []) in
                (recs3 ++ analyze_performance_trends database_id now table, st3, alerts2)
            end
      | None => (recs2 ++ analyze_performance_trends database_id now table, st3, alerts2)
      end
  end.

End Estimators.
End Recs.

(* ------------------------------------------------------------------ *)
(** ** Model file cleanup ([cleanup_old_models]) *)
Module ModelFiles.
Import Stdlib.Strings.Ascii.
Import Store.




End ModelFiles.

(* ================================================================== *)
(** * Properties *)

(* ------------------------------------------------------------------ *)
(** ** Classification and reconciliation of query statistics *)
Module QueryStatsFacts.
Import QueryStats.
Local Open Scope nat_scope.

Lemma py_gt_true (x c : Q) : py_gt x c = true <-> (c < x)%Q.
Proof.
  unfold py_gt. rewrite negb_true_iff. split.
  - intros H. apply Qnot_le_lt. intros Hle. apply Qle_bool_iff in Hle. congruence.
  - intros H. destruct (Qle_bool x c) eqn:E; [|reflexivity].
    apply Qle_bool_iff in E. exfalso. apply (Qlt_not_le c x); assumption.
Qed.

Lemma py_gt_false (x c : Q) : py_gt x c = false <-> (x <= c)%Q.
Proof.
  split.
  - intros H. apply Qnot_lt_le. intros Hlt. apply py_gt_true in Hlt. congruence.
  - intros H. destruct (py_gt x c) eqn:E; [|reflexivity].
    apply py_gt_true in E. exfalso. apply (Qlt_not_le c x); assumption.
Qed.

Lemma chain_category (mean : Q) :
  (if py_gt mean 1000 then "critical"
   else if py_gt mean 500 then "slow"
   else if py_gt mean 100 then "normal" else "fast") = category_spec mean.
Proof.
  unfold category_spec.
  destruct (Qlt_le_dec 1000 mean) as [H1|H1];
    [apply py_gt_true in H1; rewrite H1; reflexivity|apply py_gt_false in H1; rewrite H1].
  destruct (Qlt_le_dec 500 mean) as [H2|H2];
    [apply py_gt_true in H2; rewrite H2; reflexivity|apply py_gt_false in H2; rewrite H2].
  destruct (Qlt_le_dec 100 mean) as [H3|H3];
    [apply py_gt_true in H3; rewrite H3; reflexivity|apply py_gt_false in H3; rewrite H3].
  reflexivity.
Qed.

(** Claim C2: both the update path and the insert path classify a query
    by its mean time alone, with the bands critical (> 1000), slow
    (500, 1000], normal (100, 500] and fast (<= 100); the boundaries
    1000, 500 and 100 fall in the lower band. *)
Theorem performance_category_bands :
  (forall mean : Q, update_category mean = category_spec mean /\
                    insert_category mean = category_spec mean) /\
  update_category 1200 = "critical" /\ update_category 600 = "slow" /\
  update_category 150 = "normal" /\ update_category 50 = "fast" /\
  update_category 1000 = "slow" /\ update_category 500 = "normal" /\
  update_category 100 = "fast" /\
  insert_category 1000 = "slow" /\ insert_category 500 = "normal" /\
  insert_category 100 = "fast".
Proof.
  split.
  - intros mean. split; apply chain_category.
  - repeat split; vm_compute; reflexivity.
Qed.

Lemma first_None (p : QueryStatistic -> bool) (tbl : list QueryStatistic) :
  first p tbl = None <-> List.filter p tbl = [].
Proof.
  induction tbl as [|q tbl IH]; simpl; [done|].
  destruct (p q); [split; discriminate|exact IH].
Qed.

Lemma filter_update_first_same (p : QueryStatistic -> bool) f
    (tbl : list QueryStatistic) :
  (forall q, p q = true -> p (f q) = true) ->
  List.filter p (update_first p f tbl) =
  match List.filter p tbl with [] => [] | q :: r => f q :: r end.
Proof.
  intros Hf. induction tbl as [|q tbl IH]; simpl; [done|].
  destruct (p q) eqn:E; simpl.
  - rewrite (Hf q E). reflexivity.
  - rewrite E. exact IH.
Qed.

Lemma filter_update_first_other (p p' : QueryStatistic -> bool) f
    (tbl : list QueryStatistic) :
  (forall q, p q = true -> p' q = false /\ p' (f q) = false) ->
  List.filter p' (update_first p f tbl) = List.filter p' tbl.
Proof.
  intros Hd. induction tbl as [|q tbl IH]; simpl; [done|].
  destruct (p q) eqn:E; simpl.
  - destruct (Hd q E) as [H1 H2]. rewrite H1, H2. reflexivity.
  - destruct (p' q); [f_equal|]; exact IH.
Qed.

Lemma filter_app_bool (p : QueryStatistic -> bool) (l1 l2 : list QueryStatistic) :
  List.filter p (l1 ++ l2) = List.filter p l1 ++ List.filter p l2.
Proof.
  induction l1 as [|q l1 IH]; simpl; [done|]. destruct (p q); simpl; congruence.
Qed.

Lemma matches_update (db_id : Z) (h : string) now stat e :
  matches db_id h (update_existing now stat e) = matches db_id h e.
Proof. reflexivity. Qed.

Lemma matches_new (db_id : Z) (h : string) now stat :
  matches db_id h (new_record db_id now stat) = bool_decide (query_hash stat = h).
Proof. unfold matches; simpl. rewrite bool_decide_eq_true_2 by done. reflexivity. Qed.

Lemma matches_key (db_id : Z) (h h' : string) (q : QueryStatistic) :
  matches db_id h q = true -> matches db_id h' q = bool_decide (h = h').
Proof.
  unfold matches. intros H. apply andb_true_iff in H as [H1 H2].
  apply bool_decide_eq_true in H1, H2. subst.
  rewrite !bool_decide_eq_true_2 by done. reflexivity.
Qed.

(** What one row does to the records of key ([db_id], [h]). *)
Lemma reconcile_row_key (db_id : Z) (h : string) now (st : pass_state) stat :
  key_recs db_id h (table (reconcile_row db_id now st stat)) =
  if bool_decide (query_hash stat = h) then
    match key_recs db_id h (table st) with
    | [] => [new_record db_id now stat]
    | q :: r => update_existing now stat q :: r
    end
  else key_recs db_id h (table st).
Proof.
  unfold reconcile_row, key_recs.
  case_bool_decide as Hh.
  - subst h. destruct (first _ (table st)) as [q0|] eqn:Ef; simpl.
    + rewrite filter_update_first_same by (intros q Hq; rewrite matches_update; exact Hq).
      destruct (List.filter _ (table st)) eqn:Efl; [|reflexivity].
      apply first_None in Efl. congruence.
    + apply first_None in Ef. rewrite filter_app_bool, Ef. simpl.
      rewrite matches_new, bool_decide_eq_true_2 by done. reflexivity.
  - destruct (first _ (table st)) as [q0|] eqn:Ef; simpl.
    + apply filter_update_first_other. intros q Hq.
      rewrite matches_update. rewrite (matches_key _ _ h _ Hq).
      rewrite bool_decide_eq_false_2 by done. split; reflexivity.
    + rewrite filter_app_bool. simpl.
      rewrite matches_new, bool_decide_eq_false_2 by done.
      rewrite app_nil_r. reflexivity.
Qed.

Lemma reconcile_cons db_id now stat rows st :
  reconcile db_id now (stat :: rows) st =
  reconcile db_id now rows (reconcile_row db_id now st stat).
Proof. reflexivity. Qed.

Lemma reconcile_app db_id now rows1 rows2 st :
  reconcile db_id now (rows1 ++ rows2) st =
  reconcile db_id now rows2 (reconcile db_id now rows1 st).
Proof. unfold reconcile. apply foldl_app. Qed.

(** The key holds at most one record, and keeps doing so. *)
Lemma reconcile_at_most_one db_id h now rows st :
  length (key_recs db_id h (table st)) <= 1 ->
  length (key_recs db_id h (table (reconcile db_id now rows st))) <= 1.
Proof.
  revert st. induction rows as [|stat rows IH]; intros st Hst; [exact Hst|].
  rewrite reconcile_cons. apply IH. rewrite reconcile_row_key.
  case_bool_decide; [|exact Hst].
  destruct (key_recs db_id h (table st)); simpl in *; lia.
Qed.

(** Once the key has one record it keeps exactly one. *)
Lemma reconcile_one db_id h now rows st :
  length (key_recs db_id h (table st)) = 1 ->
  length (key_recs db_id h (table (reconcile db_id now rows st))) = 1.
Proof.
  revert st. induction rows as [|stat rows IH]; intros st Hst; [exact Hst|].
  rewrite reconcile_cons. apply IH. rewrite reconcile_row_key.
  case_bool_decide; [|exact Hst].
  destruct (key_recs db_id h (table st)); simpl in *; lia.
Qed.

(** A pass containing a row with hash [h] leaves exactly one record. *)
Lemma reconcile_exists_one db_id h now rows st :
  length (key_recs db_id h (table st)) <= 1 ->
  Exists (fun r => query_hash r = h) rows ->
  length (key_recs db_id h (table (reconcile db_id now rows st))) = 1.
Proof.
  intros Hle Hex. revert st Hle. induction Hex as [stat rows Hs|stat rows Hex IH];
    intros st Hle; rewrite reconcile_cons.
  - apply reconcile_one. rewrite reconcile_row_key, bool_decide_eq_true_2 by done.
    destruct (key_recs db_id h (table st)) as [|q [|q' r]]; simpl in *; lia.
  - apply IH. rewrite reconcile_row_key. case_bool_decide; [|exact Hle].
    destruct (key_recs db_id h (table st)); simpl in *; lia.
Qed.

(** Rows of other hashes leave the key's records alone. *)
Lemma reconcile_other db_id h now rows st :
  Forall (fun r => query_hash r <> h) rows ->
  key_recs db_id h (table (reconcile db_id now rows st)) = key_recs db_id h (table st).
Proof.
  intros Hall. revert st. induction Hall as [|stat rows Hs Hall IH]; intros st;
    [reflexivity|].
  rewrite reconcile_cons, IH, reconcile_row_key, bool_decide_eq_false_2 by done.
  reflexivity.
Qed.

(** Claim C8: across two passes that both return a row with hash [h],
    the table ends with exactly one record for ([db_id], [h]); its
    counters and timings are those of the last such row of the second
    pass (overwritten, not summed), its category is recomputed from that
    row's mean time, and its [last_seen] is the second pass's time. *)
Theorem reconcile_last_write_wins (db_id : Z) (h : string) (now1 now2 : time)
    (rows1 pre post : list stat_row) (r2 : stat_row)
    (tbl0 : list QueryStatistic) :
  length (key_recs db_id h tbl0) <= 1 ->
  Exists (fun r => query_hash r = h) rows1 ->
  query_hash r2 = h ->
  Forall (fun r => query_hash r <> h) post ->
  let tbl1 := snd (collect_query_statistics_task db_id true now1 rows1 tbl0) in
  let tbl2 := snd (collect_query_statistics_task db_id true now2
                     (pre ++ r2 :: post) tbl1) in
  exists q : QueryStatistic,
    key_recs db_id h tbl2 = [q] /\
    qs_calls q = calls r2 /\ qs_total_time q = total_time r2 /\
    qs_mean_time q = mean_time r2 /\ qs_min_time q = min_time r2 /\
    qs_max_time q = max_time r2 /\ qs_rows_returned q = rows_returned r2 /\
    qs_performance_category q = category_spec (mean_time r2) /\
    qs_last_seen q = now2.
Proof.
  intros H0 Hex Hr2 Hpost tbl1 tbl2. subst tbl1 tbl2. simpl.
  pose proof (reconcile_exists_one db_id h now1 rows1 (mk_pass tbl0 0 0) H0 Hex)
    as H1.
  set (st1 := reconcile db_id now1 rows1 (mk_pass tbl0 0 0)) in *.
  set (st1' := mk_pass (table st1) 0 0).
  assert (Hpre : length (key_recs db_id h
                   (table (reconcile db_id now2 pre st1'))) = 1)
    by (apply reconcile_one; exact H1).
  rewrite reconcile_app, reconcile_cons, reconcile_other by exact Hpost.
  rewrite reconcile_row_key, bool_decide_eq_true_2 by exact Hr2.
  destruct (key_recs db_id h (table (reconcile db_id now2 pre st1')))
    as [|q [|q' r]] eqn:E; simpl in Hpre; try lia.
  exists (update_existing now2 r2 q). simpl.
  repeat split; try reflexivity. exact (chain_category _).
Qed.

(** The spec's scenario: hash "q1" seen with mean 40 ms, then 1500 ms. *)
Lemma reconcile_last_write_wins_witness :
  let r1 := mk_stat_row "q1" "SELECT * FROM t" "SELECT" 3 120 40 30 50 3 10 0 0 in
  let r2 := mk_stat_row "q1" "SELECT * FROM t" "SELECT" 5 7500 1500 900 2100 5 12 4 0 in
  let tbl1 := snd (collect_query_statistics_task 7 true 1000 [r1] []) in
  let tbl2 := snd (collect_query_statistics_task 7 true 2000 [r2] tbl1) in
  exists q : QueryStatistic,
    key_recs 7 "q1" tbl2 = [q] /\
    qs_calls q = 5%Z /\ qs_total_time q = 7500%Q /\
    qs_mean_time q = 1500%Q /\ qs_min_time q = 900%Q /\
    qs_max_time q = 2100%Q /\ qs_rows_returned q = 5%Z /\
    qs_performance_category q = "critical" /\
    qs_last_seen q = 2000%Z.
Proof.
  intros r1 r2 tbl1 tbl2.
  apply (reconcile_last_write_wins 7 "q1" 1000 2000 [r1] [] [] r2 []).
  - vm_compute. lia.
  - constructor. reflexivity.
  - reflexivity.
  - constructor.
Defined.

End QueryStatsFacts.

(* ------------------------------------------------------------------ *)
(** ** Connection pools *)
Module PoolsFacts.
Import Pools.

(** Claim C10: [create_connection_pool] never raises; when the pool
    cannot be established it answers [False] and leaves the pool map as
    it was; when it can, it answers [True] and the map changes only at
    [db_id], which now holds the new pool. *)
Theorem create_connection_pool_atomic (reachable : ConnectionConfig -> bool)
    (db_id : Z) (config : ConnectionConfig) (m : monitor) :
  let '(ok, m') := create_connection_pool reachable db_id config m in
  (ok = false /\ reachable config = false /\
   connection_pools m' = connection_pools m) \/
  (ok = true /\ reachable config = true /\
   exists pool : Pool,
     connection_pools m' = <[db_id := pool]> (connection_pools m)).
Proof.
  unfold create_connection_pool, create_pool.
  destruct (reachable config) eqn:E; simpl.
  - right. split; [reflexivity|]. split; [reflexivity|]. eexists. reflexivity.
  - left. repeat split.
Qed.

(** Claim C5 as stated fails: calling [create_connection_pool] for a
    target that already has a pool replaces the map entry by a new pool. *)
Lemma create_connection_pool_replaces_existing :
  let cfg := mk_config "db.local" 5432 "app" "monitor" "secret" "prefer" in
  let old := mk_pool 0 cfg 1 5 30 in
  let m := mk_monitor {[1 := old]} 1 in
  connection_pools m !! 1 = Some old /\
  connection_pools (snd (create_connection_pool (fun _ => true) 1 cfg m)) !! 1
    <> Some old.
Proof.
  vm_compute. split; [reflexivity|]. discriminate.
Qed.

(** Claim C5, amended: reuse is the caller's: the pool step of
    [collect_metrics_task] leaves the monitor unchanged when [db_id]
    already has a pool, while [create_connection_pool] itself, when it
    succeeds, stores a freshly created pool under [db_id] in place of any
    existing one. *)
Theorem pool_reuse_is_in_caller (reachable : ConnectionConfig -> bool)
    (db_id : Z) (config : ConnectionConfig) (m : monitor)
    (Hin : db_id ∈ dom (connection_pools m)) :
  ensure_pool reachable db_id config m = Some m /\
  (reachable config = true ->
   create_connection_pool reachable db_id config m =
   (true, mk_monitor (<[db_id := mk_pool (next_pool m) config 1 5 30]>
                        (connection_pools m)) (S (next_pool m)))).
Proof.
  split.
  - unfold ensure_pool. rewrite bool_decide_eq_true_2 by exact Hin. reflexivity.
  - intros Hr. unfold create_connection_pool, create_pool. rewrite Hr. reflexivity.
Qed.

Lemma pool_reuse_is_in_caller_witness :
  let cfg := mk_config "db.local" 5432 "app" "monitor" "secret" "prefer" in
  let m := mk_monitor {[1 := mk_pool 0 cfg 1 5 30]} 1 in
  ensure_pool (fun _ => true) 1 cfg m = Some m /\
  (true = true ->
   create_connection_pool (fun _ => true) 1 cfg m =
   (true, mk_monitor (<[1 := mk_pool 1 cfg 1 5 30]> (connection_pools m)) 2%nat)).
Proof.
  intros cfg m.
  apply (pool_reuse_is_in_caller (fun _ => true) 1 cfg m).
  apply (bool_decide_unpack _). vm_compute. reflexivity.
Defined.

End PoolsFacts.

(* ------------------------------------------------------------------ *)
(** ** Model cache and serving *)
Module ServingFacts.
Import Store Serving.

Lemma get_cached_model_absent (disk : storage) (now : time) (k p : string)
    (st : analyzer) :
  models_cache st !! k = None -> disk !! p = None ->
  get_cached_model disk now k p st = (None, st).
Proof.
  intros Hk Hp. unfold get_cached_model, load_model.
  destruct (last_cache_update st !! k); [destruct (_ <? _)|]; rewrite ?Hk, Hp;
    reflexivity.
Qed.

Lemma get_cached_model_other (disk : storage) (now : time) (k p k' : string)
    (st : analyzer) :
  k <> k' ->
  models_cache (snd (get_cached_model disk now k p st)) !! k' = models_cache st !! k'.
Proof.
  intros Hne. unfold get_cached_model, load_model.
  destruct (match last_cache_update st !! k with
            | Some last => if _ <? _ then models_cache st !! k else None
            | None => None end); [reflexivity|].
  destruct (disk !! p); simpl; [|reflexivity].
  rewrite lookup_insert_ne by exact Hne. reflexivity.
Qed.

(** A lookup of a key cached at [last] serves the cached copy exactly
    when [timedelta.seconds] of the elapsed time is below the TTL. *)
Lemma get_cached_model_cached (disk : storage) (now last : time) (k p : string)
    (a : Artifact) (st : analyzer) :
  models_cache st !! k = Some a -> last_cache_update st !! k = Some last ->
  get_cached_model disk now k p st =
  if timedelta_seconds (now - last) <? cache_ttl then (Some a, st)
  else match load_model disk p with
       | Some m => (Some m, mk_analyzer (<[k := m]> (models_cache st))
                                        (<[k := now]> (last_cache_update st)))
       | None => (None, st)
       end.
Proof.
  intros Ha Hl. unfold get_cached_model. rewrite Hl.
  destruct (_ <? _); [rewrite Ha|]; reflexivity.
Qed.

(** [timedelta.seconds] over one day: within the first hour it is below
    the TTL, for the rest of the day it is not, and it starts again every
    day. *)
Lemma timedelta_seconds_regimes (d : time) :
  (0 <= d < 3600 * 1000000 -> timedelta_seconds d < cache_ttl) /\
  (3600 * 1000000 <= d < 86400 * 1000000 -> cache_ttl <= timedelta_seconds d) /\
  timedelta_seconds (d + 86400 * 1000000) = timedelta_seconds d.
Proof.
  unfold timedelta_seconds, cache_ttl. split; [|split].
  - intros Hd. rewrite Z.mod_small by lia.
    apply Z.div_lt_upper_bound; lia.
  - intros Hd. rewrite Z.mod_small by lia.
    apply Z.div_le_lower_bound; lia.
  - replace (d + 86400 * 1000000) with (d + 1 * 86400000000) by lia.
    rewrite Z.mod_add by lia. reflexivity.
Qed.

(** Claim C4 (the code departs from it): a model loaded into the cache at
    [T] is still served from the cache one day later, at [T + 86400 s],
    instead of being reloaded from storage: the check reads
    [timedelta.seconds], which drops the days of the elapsed time. *)
Theorem model_cache_serves_day_old_copy (disk1 disk2 : storage) (T : time)
    (key path : string) (a : Artifact) (st : analyzer)
    (Hload : disk1 !! path = Some a)
    (Hnew : last_cache_update st !! key = None) :
  let st1 := snd (get_cached_model disk1 T key path st) in
  get_cached_model disk2 (T + 86400 * 1000000) key path st1 = (Some a, st1).
Proof.
  intros st1.
  assert (Hst1 : st1 = mk_analyzer (<[key := a]> (models_cache st))
                                  (<[key := T]> (last_cache_update st))).
  { subst st1. unfold get_cached_model, load_model. rewrite Hnew, Hload. reflexivity. }
  rewrite (get_cached_model_cached disk2 _ T key path a st1).
  - replace (T + 86400 * 1000000 - T) with (0 + 86400 * 1000000) by lia.
    rewrite (proj2 (proj2 (timedelta_seconds_regimes 0))). reflexivity.
  - rewrite Hst1. simpl. apply lookup_insert_eq.
  - rewrite Hst1. simpl. apply lookup_insert_eq.
Qed.

Lemma model_cache_serves_day_old_copy_witness :
  let disk1 : storage := {["ml_models/load_predictor_db_3.pkl" := mk_artifact 1]} in
  let disk2 : storage := {["ml_models/load_predictor_db_3.pkl" := mk_artifact 2]} in
  let st1 := snd (get_cached_model disk1 0 "load_predictor_3"
                    "ml_models/load_predictor_db_3.pkl" init_analyzer) in
  get_cached_model disk2 (0 + 86400 * 1000000) "load_predictor_3"
    "ml_models/load_predictor_db_3.pkl" st1 = (Some (mk_artifact 1), st1).
Proof.
  intros disk1 disk2 st1.
  apply (model_cache_serves_day_old_copy disk1 disk2 0 "load_predictor_3"
           "ml_models/load_predictor_db_3.pkl" (mk_artifact 1) init_analyzer);
    vm_compute; reflexivity.
Defined.

(** Scaler keys never coincide with the global model keys. *)
Lemma scaler_keys_ne (db : option Z) :
  model_key "load_scaler" db <> model_key "load_predictor" None /\
  model_key "query_time_scaler" db <> model_key "query_time_predictor" None /\
  model_key "anomaly_scaler" db <> model_key "anomaly_detector" None.
Proof.
  destruct db as [z|]; unfold model_key; try destruct (id_truthy _);
    repeat split; simpl; discriminate.
Qed.

(** With no model file, neither specific nor global, and the model keys
    not cached, [lookup_pair] finds no model. *)
Lemma lookup_pair_no_model (disk : storage) (now : time) (db : option Z)
    (mname sname : string) (mfile sfile : model_paths -> string) (st : analyzer) :
  models_cache st !! model_key mname db = None ->
  models_cache st !! model_key mname None = None ->
  model_key sname db <> model_key mname None ->
  disk !! mfile (get_model_paths db) = None ->
  disk !! mfile (get_model_paths None) = None ->
  exists sc st', lookup_pair disk now db mname sname mfile sfile st = (None, sc, st').
Proof.
  intros Hc1 Hc2 Hne Hd1 Hd2. unfold lookup_pair.
  rewrite (get_cached_model_absent _ _ _ _ _ Hc1 Hd1).
  destruct (get_cached_model disk now (model_key sname db) (sfile (get_model_paths db)) st)
    as [scaler st2] eqn:E2.
  destruct (id_truthy db); [|eauto].
  assert (Hc3 : models_cache st2 !! model_key mname None = None).
  { replace st2 with (snd (get_cached_model disk now (model_key sname db)
                             (sfile (get_model_paths db)) st)) by (rewrite E2; reflexivity).
    rewrite get_cached_model_other by exact Hne. exact Hc2. }
  rewrite (get_cached_model_absent _ _ _ _ _ Hc3 Hd2).
  destruct (get_cached_model _ _ _ _ st2). eauto.
Qed.

(** Claim C7: with no model file for the target and none global, and an
    empty model cache, [predict_load] and [predict_query_time] answer
    [None] and [detect_anomalies] answers [anomaly_detected: False] with
    reason "model_not_found", creating no alert; none of them raises. *)
Theorem serving_unavailable_without_models
    (transform : Artifact -> list (list Q) -> option (list (list Q)))
    (predict decision_function : Artifact -> list (list Q) -> option (list Q))
    (disk : storage) (metrics : list DatabaseMetric) (now : time)
    (latest : DatabaseMetric) (database_id : option Z) (st : analyzer)
    (alerts : list Alert)
    (Hcache : models_cache st = ∅)
    (Hload : disk !! load_predictor (get_model_paths database_id) = None)
    (Hload_g : disk !! load_predictor (get_model_paths None) = None)
    (Hqt : disk !! query_time_predictor (get_model_paths database_id) = None)
    (Hqt_g : disk !! query_time_predictor (get_model_paths None) = None)
    (Han : disk !! anomaly_detector (get_model_paths database_id) = None)
    (Han_g : disk !! anomaly_detector (get_model_paths None) = None) :
  fst (predict_load transform predict disk metrics now latest database_id st) = None /\
  fst (predict_query_time transform predict disk now latest database_id st) = None /\
  (let '(res, _, alerts') :=
     detect_anomalies transform predict decision_function disk now latest
       database_id st alerts in
   res = NotDetected "model_not_found" /\ alerts' = alerts).
Proof.
  assert (Hc : forall k, models_cache st !! k = None)
    by (intros k; rewrite Hcache; apply lookup_empty).
  split; [|split].
  - unfold predict_load.
    destruct (lookup_pair_no_model disk now database_id "load_predictor" "load_scaler"
                load_predictor load_scaler st (Hc _) (Hc _)
                (proj1 (scaler_keys_ne database_id)) Hload Hload_g)
      as (sc & st' & ->).
    reflexivity.
  - unfold predict_query_time.
    destruct (lookup_pair_no_model disk now database_id "query_time_predictor"
                "query_time_scaler" query_time_predictor query_time_scaler st
                (Hc _) (Hc _) (proj1 (proj2 (scaler_keys_ne database_id)))
                Hqt Hqt_g) as (sc & st' & ->).
    split; reflexivity.
  - unfold detect_anomalies.
    destruct (lookup_pair_no_model disk now database_id "anomaly_detector"
                "anomaly_scaler" anomaly_detector anomaly_scaler st
                (Hc _) (Hc _) (proj2 (proj2 (scaler_keys_ne database_id)))
                Han Han_g) as (sc & st' & ->).
    split; reflexivity.
Qed.

Lemma serving_unavailable_without_models_witness :
  let disk : storage := {["ml_models/scaler_db_4.pkl" := mk_artifact 9]} in
  let latest := mk_metric 4 (Some 50%Q) (Some 60%Q) (Some 10%Q) (Some 20%Q)
                  (Some 99%Q) (Some 12%Q) (Some 0%Q) (Some 0%Q) in
  fst (predict_load (fun _ x => Some x) (fun _ _ => Some [(-1)%Q]) disk [latest] 0
         latest (Some 4) init_analyzer) = None /\
  fst (predict_query_time (fun _ x => Some x) (fun _ _ => Some [(-1)%Q]) disk 0
         latest (Some 4) init_analyzer) = None /\
  (let '(res, _, alerts') :=
     detect_anomalies (fun _ x => Some x) (fun _ _ => Some [(-1)%Q])
       (fun _ _ => Some [(-1)%Q]) disk 0 latest (Some 4) init_analyzer [] in
   res = NotDetected "model_not_found" /\ alerts' = []).
Proof.
  intros disk latest.
  apply (serving_unavailable_without_models (fun _ x => Some x)
           (fun _ _ => Some [(-1)%Q]) (fun _ _ => Some [(-1)%Q]) disk [latest] 0
           latest (Some 4) init_analyzer []);
    vm_compute; reflexivity.
Defined.

(** Claim C6 (the code departs from it): only [predict_load] checks the
    10-sample history minimum.  For a target with 5 stored samples and
    its models on storage, [predict_load] gives no prediction, but
    [predict_query_time] returns a prediction and [detect_anomalies] a
    scored detection. *)
Theorem history_minimum_only_in_predict_load :
  let disk : storage :=
    {["ml_models/load_predictor_db_1.pkl" := mk_artifact 1;
      "ml_models/scaler_db_1.pkl" := mk_artifact 2;
      "ml_models/query_time_predictor_db_1.pkl" := mk_artifact 3;
      "ml_models/query_time_scaler_db_1.pkl" := mk_artifact 4;
      "ml_models/anomaly_detector_db_1.pkl" := mk_artifact 5;
      "ml_models/anomaly_scaler_db_1.pkl" := mk_artifact 6]} in
  let latest := mk_metric 1 (Some 40%Q) (Some 55%Q) (Some 120%Q) (Some 12%Q)
                  (Some 98%Q) (Some 8%Q) (Some 1%Q) (Some 0%Q) in
  let metrics := [latest; latest; latest; latest; latest] in
  let transform := fun (_ : Artifact) (x : list (list Q)) => Some x in
  let predict := fun (_ : Artifact) (_ : list (list Q)) => Some [1%Q] in
  let decision := fun (_ : Artifact) (_ : list (list Q)) => Some [(1 # 5)%Q] in
  get_historical_metrics_count (Some 1) metrics = 5%nat /\
  fst (predict_load transform predict disk metrics 0 latest (Some 1) init_analyzer)
    = None /\
  fst (predict_query_time transform predict disk 0 latest (Some 1) init_analyzer)
    = Some 1%Q /\
  fst (fst (detect_anomalies transform predict decision disk 0 latest (Some 1)
              init_analyzer [])) = Scored false (1 # 5) 0 7.
Proof. vm_compute. repeat split. Qed.

(** Claim C1 as stated fails: two anomaly detections for the same target
    leave two open alerts for ([Some 1], "performance_anomaly"). *)
Lemma anomaly_alerts_not_deduplicated :
  let disk : storage :=
    {["ml_models/anomaly_detector_db_1.pkl" := mk_artifact 5;
      "ml_models/anomaly_scaler_db_1.pkl" := mk_artifact 6]} in
  let latest := mk_metric 1 (Some 97%Q) (Some 95%Q) (Some 480%Q) (Some 900%Q)
                  (Some 60%Q) (Some 2500%Q) (Some 40%Q) (Some 3%Q) in
  let run := detect_anomalies (fun _ x => Some x) (fun _ _ => Some [(-1)%Q])
               (fun _ _ => Some [(-3 # 4)%Q]) disk 0 latest (Some 1) in
  let '(_, st1, alerts1) := run init_analyzer [] in
  let '(_, _, alerts2) := run st1 alerts1 in
  length (open_alerts (Some 1) "performance_anomaly" alerts2) = 2%nat.
Proof. vm_compute. reflexivity. Qed.

(** Claim C1, amended: the anomaly path does not deduplicate.  Every
    [detect_anomalies] call that flags an anomaly appends exactly one new
    open alert for (target, "performance_anomaly"), whatever alerts are
    already open; every other outcome leaves the alerts unchanged. *)
Theorem detect_anomalies_one_alert_per_detection
    (transform : Artifact -> list (list Q) -> option (list (list Q)))
    (predict decision_function : Artifact -> list (list Q) -> option (list Q))
    (disk : storage) (now : time) (latest : DatabaseMetric)
    (database_id : option Z) (st : analyzer) (alerts : list Alert) :
  let '(res, _, alerts') :=
    detect_anomalies transform predict decision_function disk now latest
      database_id st alerts in
  (exists (score : Q) (n : nat) (a : Alert),
     res = Scored true score 0 n /\ alerts' = alerts ++ [a] /\
     is_open a = true /\ alert_database_id a = database_id /\
     metric_name a = "performance_anomaly") \/
  ((forall (score : Q) (n : nat), res <> Scored true score 0 n) /\ alerts' = alerts).
Proof.
  unfold detect_anomalies.
  destruct (lookup_pair _ _ _ _ _ _ _ _) as [[[model|] [scaler|]] st'];
    try (right; split; [intros ? ? ?; discriminate|reflexivity]).
  destruct (prepare_anomaly_features latest) as [features|];
    [|right; split; [intros ? ? ?; discriminate|reflexivity]].
  destruct (transform scaler [features]) as [x_pred|];
    [|right; split; [intros ? ? ?; discriminate|reflexivity]].
  destruct (decision_function model x_pred) as [[|score ?]|];
    try (right; split; [intros ? ? ?; discriminate|reflexivity]).
  destruct (predict model x_pred) as [[|label ?]|];
    try (right; split; [intros ? ? ?; discriminate|reflexivity]).
  destruct (Qeq_bool label (-1)).
  - left. eexists _, _, _. split; [reflexivity|]. split; [reflexivity|].
    repeat split.
  - right. split; [|reflexivity]. intros ? ? H. injection H. discriminate.
Qed.

End ServingFacts.

(* ------------------------------------------------------------------ *)
(** ** Training *)
Module TrainingFacts.
Import Store Training.
Local Open Scope nat_scope.

(** Claim C3: each of the three training tasks, when fewer than 50 valid
    feature rows are available (in particular when fewer than 50 samples
    were read), returns an insufficient-data status, not an error, and
    writes no model or scaler file. *)
Theorem training_insufficient_data
    (fit_scaler : list (list Q) -> option Artifact)
    (fit_regressor : list (list Q) -> list Q -> option Artifact)
    (fit_isolation_forest : list (list Q) -> option Artifact)
    (database_id : option Z) (metrics : list DatabaseMetric) (disk : storage) :
  (length (load_rows (historical database_id 10000 metrics)) < MIN_TRAIN_SIZE ->
   let '(r, disk') := train_load_predictor fit_scaler fit_regressor database_id
                        metrics disk in
   insufficient r = true /\ disk' = disk) /\
  (length (anomaly_rows (historical database_id 5000 metrics)) < MIN_TRAIN_SIZE ->
   let '(r, disk') := train_anomaly_detector fit_scaler fit_isolation_forest
                        database_id metrics disk in
   insufficient r = true /\ disk' = disk) /\
  (length (query_time_rows (historical database_id 5000 metrics)) < MIN_TRAIN_SIZE ->
   let '(r, disk') := train_query_time_predictor fit_scaler fit_regressor
                        database_id metrics disk in
   insufficient r = true /\ disk' = disk).
Proof.
  split; [|split]; intros Hrows.
  - unfold train_load_predictor.
    destruct (Nat.ltb _ MIN_TRAIN_SIZE); [split; reflexivity|].
    apply Nat.ltb_lt in Hrows. rewrite Hrows. split; reflexivity.
  - unfold train_anomaly_detector.
    destruct (Nat.ltb _ MIN_TRAIN_SIZE); [split; reflexivity|].
    apply Nat.ltb_lt in Hrows. rewrite Hrows. split; reflexivity.
  - unfold train_query_time_predictor.
    destruct (Nat.ltb _ MIN_TRAIN_SIZE); [split; reflexivity|].
    apply Nat.ltb_lt in Hrows. rewrite Hrows. split; reflexivity.
Qed.

(** 60 samples of target 2 without a CPU reading: enough samples, no
    valid row. *)
Lemma training_insufficient_data_witness :
  let m := mk_metric 2 None (Some 70%Q) (Some 300%Q) (Some 15%Q) (Some 97%Q)
             (Some 20%Q) None None in
  let metrics := repeat m 60 in
  let fs := fun (_ : list (list Q)) => Some (mk_artifact 0) in
  let fr := fun (_ : list (list Q)) (_ : list Q) => Some (mk_artifact 1) in
  let disk : storage := ∅ in
  (let '(r, disk') := train_load_predictor fs fr (Some 2%Z) metrics disk in
   insufficient r = true /\ disk' = disk) /\
  (let '(r, disk') := train_anomaly_detector fs fs (Some 2%Z) metrics disk in
   insufficient r = true /\ disk' = disk) /\
  (let '(r, disk') := train_query_time_predictor fs fr (Some 2%Z) metrics disk in
   insufficient r = true /\ disk' = disk).
Proof.
  intros m metrics fs fr disk.
  destruct (training_insufficient_data fs fr fs (Some 2%Z) metrics disk)
    as (H1 & H2 & H3).
  split; [|split]; [apply H1|apply H2|apply H3]; vm_compute; lia.
Defined.

End TrainingFacts.

(* ------------------------------------------------------------------ *)
(** ** Cache layer *)
Module CacheFacts.
Import Cache Stdlib.Strings.Ascii.

Lemma pretty_N_go_length (x : N) (s : string) :
  (String.length s <= String.length (pretty_N_go x s))%nat.
Proof.
  revert s. induction (N.lt_wf_0 x) as [x _ IH]; intros s.
  destruct (decide (x = 0)%N) as [->|Hx]; [rewrite pretty_N_go_0; lia|].
  rewrite pretty_N_go_step by lia.
  etrans; [|apply IH; apply N.div_lt; lia]. simpl. lia.
Qed.

Lemma pretty_Z_nonempty (z : Z) : pretty z <> EmptyString.
Proof.
  destruct z as [|p|p]; [discriminate| |discriminate].
  change (pretty (Zpos p)) with (pretty_N (Npos p)). unfold pretty_N.
  destruct (decide _); [discriminate|].
  intros H.
  pose proof (pretty_N_go_length (N.pos p `div` 10)
                (String (pretty_N_char (N.pos p `mod` 10)) EmptyString)) as Hl.
  rewrite <- pretty_N_go_step in Hl by lia. rewrite H in Hl. simpl in Hl. lia.
Qed.

(** [json.dumps] never produces the empty text, so the bytes Redis hands
    back for a stored key are always truthy. *)
Lemma dumps_nonempty (v : pyval) : dumps v <> EmptyString.
Proof.
  destruct v as [|[]|z|s|l|kvs]; simpl; try discriminate.
  apply pretty_Z_nonempty.
Qed.

(** Claim C9 as stated fails: after [set(key, 0)], [get(key)] returns [0],
    not [None]. *)
Lemma cache_get_keeps_falsy_value :
  let r' := snd (cache_set (mk_redis true ∅) "k" (PInt 0) None 0) in
  cache_get r' "k" 1 = PInt 0 /\ PInt 0 <> PNone.
Proof. vm_compute. split; [reflexivity|discriminate]. Qed.

(** Claim C9, amended: for every value [v] that [json.loads(json.dumps(v))]
    gives back, a successful [set(key, v)] followed within the TTL by
    [get(key)] returns [v], falsy values included (for [v = None] this
    coincides with a miss); the [cache_response] wrapper then serves [v]
    without running the function only when [v] is truthy, and for a falsy
    [v] it runs the function again and stores its result. *)
Theorem cache_set_get_roundtrip (r : redis) (key : string) (v result : pyval)
    (timeout : option Z) (t2 : Z) (now now' : time)
    (Hup : redis_up r = true)
    (Hjson : loads (dumps v) = Some v)
    (Httl : now' < now + effective_timeout timeout * 1000000) :
  let '(ok, r') := cache_set r key v timeout now in
  ok = true /\ cache_get r' key now' = v /\
  cache_response t2 key result r' now' =
  (if truthy v then (v, false, r')
   else (result, true, snd (cache_set r' key result (Some t2) now'))).
Proof.
  unfold cache_set. rewrite Hup. simpl.
  assert (Hget : cache_get (mk_redis true (<[key := (dumps v,
                   now + effective_timeout timeout * 1000000)]> (redis_kv r)))
                   key now' = v).
  { unfold cache_get, redis_get. simpl. rewrite lookup_insert_eq.
    apply Z.ltb_lt in Httl. rewrite Httl.
    rewrite bool_decide_eq_false_2 by apply dumps_nonempty. simpl.
    rewrite Hjson. reflexivity. }
  split; [reflexivity|]. split; [exact Hget|].
  unfold cache_response. rewrite Hget.
  destruct (truthy v); reflexivity.
Qed.

Lemma cache_set_get_roundtrip_witness :
  let r := mk_redis true ∅ in
  let '(ok, r') := cache_set r "dashboard" (PList []) (Some 60) 0 in
  ok = true /\ cache_get r' "dashboard" 1000000 = PList [] /\
  cache_response 300 "dashboard" (PList [PInt 7]) r' 1000000 =
  (if truthy (PList []) then (PList [], false, r')
   else (PList [PInt 7], true, snd (cache_set r' "dashboard" (PList [PInt 7])
                                      (Some 300) 1000000))).
Proof.
  intros r.
  apply (cache_set_get_roundtrip r "dashboard" (PList []) (PList [PInt 7])
           (Some 60) 300 0 1000000).
  - reflexivity.
  - vm_compute. reflexivity.
  - vm_compute. reflexivity.
Defined.

End CacheFacts.

(* ------------------------------------------------------------------ *)
(** ** The monitor's collectors and query classification *)
Module MonitorFacts.
Import Stdlib.Strings.Ascii.
Import Pools QueryStats Monitor.

Lemma filter_update_first_db db_id h now stat (tbl : list QueryStatistic) :
  List.filter (fun q => negb (bool_decide (qs_database_id q = db_id)))
    (update_first (matches db_id h) (update_existing now stat) tbl) =
  List.filter (fun q => negb (bool_decide (qs_database_id q = db_id))) tbl.
Proof.
  induction tbl as [|q t IHt]; simpl; [reflexivity|].
  destruct (matches db_id h q) eqn:Em; simpl.
  - unfold matches in Em. apply andb_true_iff in Em as [Em _].
    apply bool_decide_eq_true in Em. rewrite Em.
    rewrite bool_decide_eq_true_2 by reflexivity. reflexivity.
  - rewrite IHt. reflexivity.
Qed.

Lemma reconcile_counts db_id now rows st :
  let st' := reconcile db_id now rows st in
  (updated_count st' + new_count st' = updated_count st + new_count st + length rows)%nat /\
  length (table st') = (length (table st) + (new_count st' - new_count st))%nat /\
  (new_count st <= new_count st')%nat /\
  List.filter (fun q => negb (bool_decide (qs_database_id q = db_id))) (table st') =
  List.filter (fun q => negb (bool_decide (qs_database_id q = db_id))) (table st).
Proof.
  revert st. induction rows as [|stat rows IH]; intros st; simpl.
  - split; [lia|]. split; [lia|]. split; [lia|reflexivity].
  - destruct (IH (reconcile_row db_id now st stat)) as (H1 & H2 & H3 & H4).
    unfold reconcile in *. simpl.
    unfold reconcile_row in *.
    destruct (first (matches db_id (query_hash stat)) (table st)) eqn:E;
      simpl in *.
    + split; [lia|]. split.
      { rewrite H2. f_equal.
        clear. induction (table st) as [|q t IHt]; simpl; [reflexivity|].
        destruct (matches db_id (query_hash stat) q); simpl; lia. }
      split; [lia|]. rewrite H4. apply filter_update_first_db.
    + split; [lia|]. split.
      { rewrite H2, length_app. simpl. lia. }
      split; [lia|]. rewrite H4, List.filter_app. simpl.
      rewrite bool_decide_eq_true_2 by reflexivity. simpl. apply app_nil_r.
Qed.

Lemma list_ascii_of_string_app (s1 s2 : string) :
  String.list_ascii_of_string (s1 +:+ s2) =
  String.list_ascii_of_string s1 ++ String.list_ascii_of_string s2.
Proof. induction s1 as [|c s1 IH]; simpl; [reflexivity|]. rewrite IH. reflexivity. Qed.

Lemma lstrip_app (x y : list Ascii.ascii) :
  lstrip (x ++ y) = match lstrip x with [] => lstrip y | l => l ++ y end.
Proof.
  induction x as [|c x IH]; simpl; [reflexivity|].
  destruct (py_isspace c); [exact IH|reflexivity].
Qed.

Lemma lstrip_spaces (ws : list Ascii.ascii) :
  Forall (fun c => py_isspace c = true) ws -> lstrip ws = [].
Proof. induction 1 as [|c ws Hc _ IH]; simpl; [reflexivity|]. rewrite Hc. exact IH. Qed.

Lemma lstrip_idem (x : list Ascii.ascii) : lstrip (lstrip x) = lstrip x.
Proof.
  induction x as [|c x IH]; simpl; [reflexivity|].
  destruct (py_isspace c) eqn:E; [exact IH|simpl; rewrite E; reflexivity].
Qed.

Lemma py_strip_pad (ws1 s ws2 : list Ascii.ascii) :
  Forall (fun c => py_isspace c = true) ws1 ->
  Forall (fun c => py_isspace c = true) ws2 ->
  py_strip (ws1 ++ s ++ ws2) = py_strip s.
Proof.
  intros H1 H2. unfold py_strip.
  rewrite (lstrip_app ws1), (lstrip_spaces ws1 H1).
  rewrite (lstrip_app s).
  destruct (lstrip s) as [|c l] eqn:E.
  - rewrite (lstrip_spaces ws2 H2). reflexivity.
  - rewrite rev_app_distr, (lstrip_app (rev ws2)).
    rewrite (lstrip_spaces (rev ws2)) by (apply Forall_rev; exact H2).
    reflexivity.
Qed.

Lemma py_upper_app (x y : list Ascii.ascii) :
  py_upper (x ++ y) = py_upper x ++ py_upper y.
Proof. unfold py_upper. apply flat_map_app. Qed.

Lemma startswith_app (p x y : list Ascii.ascii) :
  startswith p x = true -> startswith p (x ++ y) = true.
Proof.
  revert x. induction p as [|c p IH]; intros [|d x] H; simpl in *; try easy.
  apply andb_true_iff in H as [H1 H2]. rewrite H1. simpl. apply IH. exact H2.
Qed.

Lemma startswith_refl (p : list Ascii.ascii) : startswith p p = true.
Proof.
  induction p as [|c p IH]; simpl; [reflexivity|]. rewrite Ascii.eqb_refl. exact IH.
Qed.

(** No whitespace character has a letter as capital, and whitespace is
    its own capital. *)
Lemma upper_char_space (c : Ascii.ascii) :
  py_isspace c = true -> upper_char c = [c].
Proof.
  destruct c as [[] [] [] [] [] [] [] []]; vm_compute; congruence.
Qed.

Lemma upper_char_letter (c d : Ascii.ascii) (l : list Ascii.ascii) :
  upper_char c = d :: l ->
  Nat.leb 65 (Ascii.nat_of_ascii d) && Nat.leb (Ascii.nat_of_ascii d) 90 = true ->
  py_isspace c = false.
Proof.
  intros H Hd. destruct (py_isspace c) eqn:E; [|reflexivity].
  rewrite upper_char_space in H by exact E. injection H as Hcd _. subst d.
  revert E Hd. destruct c as [[] [] [] [] [] [] [] []]; vm_compute; congruence.
Qed.

Lemma py_upper_no_space (p : list Ascii.ascii) (K : list Ascii.ascii) :
  py_upper p = K ->
  Forall (fun d => Nat.leb 65 (Ascii.nat_of_ascii d) && Nat.leb (Ascii.nat_of_ascii d) 90 = true) K ->
  Forall (fun c => py_isspace c = false) p.
Proof.
  revert K. induction p as [|c p IH]; intros K HK HF; [constructor|].
  unfold py_upper in HK. simpl in HK. fold (py_upper p) in HK. subst K.
  apply Forall_app in HF as [Hc Hp]. constructor.
  - destruct (upper_char c) as [|d l] eqn:E.
    + revert E. destruct c as [[] [] [] [] [] [] [] []]; vm_compute; congruence.
    + inversion Hc; subst. eapply upper_char_letter; eassumption.
  - eapply IH; [reflexivity|exact Hp].
Qed.

Lemma lstrip_nonspace (c : Ascii.ascii) (l : list Ascii.ascii) :
  py_isspace c = false -> lstrip (c :: l) = c :: l.
Proof. intros H. simpl. rewrite H. reflexivity. Qed.

Lemma py_strip_prefix (ws p r : list Ascii.ascii) :
  Forall (fun c => py_isspace c = true) ws ->
  p <> [] -> Forall (fun c => py_isspace c = false) p ->
  exists r', py_strip (ws ++ p ++ r) = p ++ r'.
Proof.
  intros Hws Hp Hnp. unfold py_strip.
  rewrite (lstrip_app ws), (lstrip_spaces ws Hws).
  destruct p as [|c p]; [congruence|].
  inversion Hnp as [|? ? Hc Hp']; subst.
  rewrite <- app_comm_cons, lstrip_nonspace by exact Hc.
  rewrite app_comm_cons, rev_app_distr, (lstrip_app (rev r)).
  destruct (lstrip (rev r)) as [|d l] eqn:E.
  - exists []. rewrite app_nil_r.
    destruct (rev (c :: p)) as [|e t] eqn:Er.
    + simpl in Er. destruct (rev p); discriminate.
    + assert (He : py_isspace e = false).
      { assert (In e (rev (c :: p))) by (rewrite Er; left; reflexivity).
        apply in_rev in H. rewrite List.Forall_forall in Hnp. apply Hnp. exact H. }
      rewrite lstrip_nonspace by exact He. rewrite <- Er, rev_involutive. reflexivity.
  - exists (rev (d :: l)). rewrite rev_app_distr, rev_involutive. reflexivity.
Qed.

(** X1: [collect_query_statistics_task] accounts for every row: the updated and
    new counts add up to the number of rows the collector returned, the
    table grows by exactly the new count, and the records of every other
    database are left as they were; an inactive database leaves the table
    unchanged. *)
Theorem collect_query_statistics_task_counts (db_id : Z) (active : bool) (now : time)
    (rows : list stat_row) (tbl : list QueryStatistic) :
  match collect_query_statistics_task db_id active now rows tbl with
  | (Success u n, tbl') =>
      (u + n = length rows)%nat /\ length tbl' = (length tbl + n)%nat /\
      List.filter (fun q => negb (bool_decide (qs_database_id q = db_id))) tbl' =
      List.filter (fun q => negb (bool_decide (qs_database_id q = db_id))) tbl
  | (Skipped _, tbl') => tbl' = tbl
  end.
Proof.
  unfold collect_query_statistics_task. destruct active; simpl; [|reflexivity].
  destruct (reconcile_counts db_id now rows (mk_pass tbl 0 0)) as (H1 & H2 & H3 & H4).
  simpl in *. split; [lia|]. split; [lia|exact H4].
Qed.

(** X2: After [close_connection_pool(db_id)] the database has no pool, every
    other database keeps its pool, and both collectors answer for
    [db_id] with their empty result without asking the server. *)
Theorem close_connection_pool_stops_collection
    (extension_exists : Pool -> option bool)
    (fetch_stat_statements : Pool -> option (list pgss_row))
    (snapshot : Pool -> option pg_snapshot) (md5_hexdigest : string -> string)
    (isoformat : time -> string) (db_id : Z) (m : monitor) (now : time) :
  let m' := close_connection_pool db_id m in
  connection_pools m' !! db_id = None /\
  (forall other, other <> db_id -> connection_pools m' !! other = connection_pools m !! other) /\
  collect_query_statistics extension_exists fetch_stat_statements md5_hexdigest m' db_id = [] /\
  collect_performance_metrics snapshot isoformat m' db_id now = None.
Proof.
  assert (Hnone : connection_pools (close_connection_pool db_id m) !! db_id = None).
  { unfold close_connection_pool. case_bool_decide as Hin; simpl.
    - apply lookup_delete_eq.
    - apply not_elem_of_dom. exact Hin. }
  simpl. split; [exact Hnone|]. split.
  - intros other Hne. unfold close_connection_pool. case_bool_decide; simpl; [|reflexivity].
    apply lookup_delete_ne. congruence.
  - unfold collect_query_statistics, collect_performance_metrics. rewrite Hnone.
    split; reflexivity.
Qed.

(** X3: [_detect_query_type] ignores whitespace around the statement: padding
    a query with whitespace on either side never changes its type. *)
Theorem detect_query_type_ignores_padding (ws1 s ws2 : string) :
  Forall (fun c => py_isspace c = true) (String.list_ascii_of_string ws1) ->
  Forall (fun c => py_isspace c = true) (String.list_ascii_of_string ws2) ->
  detect_query_type (ws1 +:+ s +:+ ws2) = detect_query_type s.
Proof.
  intros H1 H2. unfold detect_query_type.
  rewrite !list_ascii_of_string_app, py_strip_pad by assumption. reflexivity.
Qed.

(** X4: A statement that begins, after any leading whitespace, with one of
    the seven keywords written in any letter case gets that keyword as
    its type, whatever follows: the test is a bare prefix test, with no
    word boundary ("selectivity" counts as SELECT). *)
Theorem detect_query_type_keyword_prefix (ws p rest K : string) :
  Forall (fun c => py_isspace c = true) (String.list_ascii_of_string ws) ->
  In K ["SELECT"; "INSERT"; "UPDATE"; "DELETE"; "CREATE"; "ALTER"; "DROP"] ->
  py_upper (String.list_ascii_of_string p) = kw K ->
  detect_query_type (ws +:+ p +:+ rest) = K.
Proof.
  intros Hws HK Hp.
  assert (Hletters : Forall (fun d => Nat.leb 65 (Ascii.nat_of_ascii d)
                                      && Nat.leb (Ascii.nat_of_ascii d) 90 = true) (kw K)).
  { destruct HK as [<-|[<-|[<-|[<-|[<-|[<-|[<-|[]]]]]]]];
      repeat constructor. }
  assert (Hne : String.list_ascii_of_string p <> []).
  { intros E. rewrite E in Hp.
    destruct HK as [<-|[<-|[<-|[<-|[<-|[<-|[<-|[]]]]]]]]; discriminate. }
  destruct (py_strip_prefix (String.list_ascii_of_string ws)
              (String.list_ascii_of_string p) (String.list_ascii_of_string rest)
              Hws Hne (py_upper_no_space _ _ Hp Hletters)) as [r' Hr'].
  unfold detect_query_type. rewrite !list_ascii_of_string_app, Hr', py_upper_app, Hp.
  destruct HK as [<-|[<-|[<-|[<-|[<-|[<-|[<-|[]]]]]]]]; reflexivity.
Qed.

(** X5: Collector and task together: when the server returns statement rows
    for a database whose table holds at most one record per
    ([db_id], hash), every returned statement ends with exactly one record,
    keyed by the MD5 of its text, and the table still holds at most one
    record per key. *)
Theorem collected_statements_one_record_each
    (extension_exists : Pool -> option bool)
    (fetch_stat_statements : Pool -> option (list pgss_row))
    (md5_hexdigest : string -> string) (m : monitor) (db_id : Z) (pool : Pool)
    (rows : list pgss_row) (now : time) (tbl : list QueryStatistic) :
  connection_pools m !! db_id = Some pool ->
  extension_exists pool = Some true ->
  fetch_stat_statements pool = Some rows ->
  (forall h, (length (key_recs db_id h tbl) <= 1)%nat) ->
  let tbl' := snd (collect_query_statistics_task db_id true now
                     (collect_query_statistics extension_exists fetch_stat_statements
                        md5_hexdigest m db_id) tbl) in
  (forall row, In row rows ->
     length (key_recs db_id (md5_hexdigest (ps_query row)) tbl') = 1%nat) /\
  (forall h, (length (key_recs db_id h tbl') <= 1)%nat).
Proof.
  intros Hpool Hext Hfetch Huniq tbl'. subst tbl'.
  unfold collect_query_statistics. rewrite Hpool, Hext, Hfetch. simpl.
  split.
  - intros row Hrow. apply QueryStatsFacts.reconcile_exists_one; [exact (Huniq _)|].
    apply List.Exists_exists. exists (stat_of_row md5_hexdigest row). split.
    + apply in_map. exact Hrow.
    + reflexivity.
  - intros h. apply QueryStatsFacts.reconcile_at_most_one. exact (Huniq h).
Qed.

Lemma close_connection_pool_stops_collection_witness :
  let pool := mk_pool 0 (mk_config "h" 5432 "app" "u" "p" "prefer") 1 5 30 in
  let m' := close_connection_pool 1 (mk_monitor {[1 := pool; 2 := pool]} 1) in
  connection_pools m' !! 1 = None /\
  (forall other, other <> 1 ->
     connection_pools m' !! other = ({[1 := pool; 2 := pool]} : gmap Z Pool) !! other) /\
  collect_query_statistics (fun _ => Some true) (fun _ => Some []) (fun s => s) m' 1 = [] /\
  collect_performance_metrics (fun _ => None) (fun _ => EmptyString) m' 1 0 = None.
Proof.
  intros pool m'.
  exact (close_connection_pool_stops_collection (fun _ => Some true) (fun _ => Some [])
           (fun _ => None) (fun s => s) (fun _ => EmptyString) 1
           (mk_monitor {[1 := pool; 2 := pool]} 1) 0).
Defined.

Lemma detect_query_type_ignores_padding_witness :
  detect_query_type ("  " +:+ "select 1" +:+ " ") = detect_query_type "select 1".
Proof.
  apply detect_query_type_ignores_padding; vm_compute; repeat constructor.
Defined.

Lemma detect_query_type_keyword_prefix_witness :
  detect_query_type (" " +:+ "SeLeCt" +:+ "ivity FROM t") = "SELECT".
Proof.
  apply detect_query_type_keyword_prefix.
  - vm_compute. repeat constructor.
  - left. reflexivity.
  - vm_compute. reflexivity.
Defined.

Lemma collected_statements_one_record_each_witness :
  let pool := mk_pool 0 (mk_config "h" 5432 "app" "u" "p" "prefer") 1 5 30 in
  let row := mk_pgss "select 1" 2 10 5 4 6 2 0 0 0 0 in
  let tbl' := snd (collect_query_statistics_task 1 true 100
                 (collect_query_statistics (fun _ => Some true) (fun _ => Some [row])
                    (fun s => s) (mk_monitor {[1 := pool]} 1) 1) []) in
  (forall r, In r [row] -> length (key_recs 1 (ps_query r) tbl') = 1%nat) /\
  (forall h, (length (key_recs 1 h tbl') <= 1)%nat).
Proof.
  intros pool row tbl'.
  apply (collected_statements_one_record_each (fun _ => Some true) (fun _ => Some [row])
           (fun s => s) (mk_monitor {[1 := pool]} 1) 1 pool [row] 100 []).
  - reflexivity.
  - reflexivity.
  - reflexivity.
  - intros h. simpl. lia.
Defined.

End MonitorFacts.

(* ------------------------------------------------------------------ *)
(** ** Facts about the Celery tasks *)
Module TasksFacts.
Import Stdlib.Strings.Ascii.
Import Pools Store Serving Training Cache Monitor RedisOps Tasks.
Local Open Scope nat_scope.

Ltac metrics_dict_cases s :=
  unfold metrics_dict; destruct (s_buffer_cache_hit_ratio s) as [q|];
  [destruct (Qeq_bool q 0)|]; vm_compute; reflexivity.

(** The row built from a collected dict has NULL in every column the
    collector does not produce. *)
Lemma stored_metric_of_dict (db_id : Z) (isoformat : time -> string)
    (s : pg_snapshot) (now : time) :
  let m := stored_metric db_id (metrics_dict isoformat s now) in
  dm_database_id m = db_id /\ cpu_usage m = None /\ memory_usage m = None /\
  disk_io m = None /\ avg_query_time m = None /\ deadlocks_count m = None.
Proof.
  assert (Hc : dict_get (metrics_dict isoformat s now) "cpu_usage" = None)
    by metrics_dict_cases s.
  assert (Hm : dict_get (metrics_dict isoformat s now) "memory_usage" = None)
    by metrics_dict_cases s.
  assert (Ha : dict_get (metrics_dict isoformat s now) "avg_query_time" = None)
    by metrics_dict_cases s.
  assert (Hd : dict_get (metrics_dict isoformat s now) "deadlocks_count" = None)
    by metrics_dict_cases s.
  unfold stored_metric.
  cbn [dm_database_id cpu_usage memory_usage disk_io avg_query_time deadlocks_count].
  rewrite Hc, Hm, Ha, Hd. repeat split.
Qed.


(** What one run does to the metric table. *)
Lemma collect_metrics_task_table reachable snapshot isoformat py_repr db_id now w :
  metric_table (snd (collect_metrics_task reachable snapshot isoformat py_repr db_id now w))
    = metric_table w \/
  exists s, metric_table (snd (collect_metrics_task reachable snapshot isoformat py_repr
                                 db_id now w))
            = metric_table w ++ [(now, stored_metric db_id (metrics_dict isoformat s now))].
Proof.
  unfold collect_metrics_task.
  destruct (conns w !! db_id) as [c|]; [|left; reflexivity].
  destruct (negb (dc_is_active c)); [left; reflexivity|].
  destruct (ensure_pool _ _ _ _) as [m|]; [|left; reflexivity].
  unfold collect_performance_metrics.
  destruct (connection_pools m !! db_id) as [p|]; [|left; reflexivity].
  destruct (snapshot p) as [s|]; [|left; reflexivity].
  right. exists s.
  destruct (setex _ _ _ _ _) as [r1|]; [|reflexivity].
  destruct (redis_delete _ _ _) as [[? ?]|]; reflexivity.
Qed.

Lemma run_collections_cpu_null reachable snapshot isoformat py_repr runs w :
  Forall (fun r : time * DatabaseMetric => cpu_usage (snd r) = None) (metric_table w) ->
  Forall (fun r : time * DatabaseMetric => cpu_usage (snd r) = None)
    (metric_table (run_collections reachable snapshot isoformat py_repr runs w)).
Proof.
  revert w. induction runs as [|[db_id now] runs IH]; intros w Hw; simpl; [exact Hw|].
  apply IH.
  destruct (collect_metrics_task_table reachable snapshot isoformat py_repr db_id now w)
    as [-> | [s ->]]; [exact Hw|].
  apply Forall_app. split; [exact Hw|].
  constructor; [|constructor]. simpl.
  apply (stored_metric_of_dict db_id isoformat s now).
Qed.

Lemma historical_in (database_id : option Z) (n : nat) (ms : list DatabaseMetric)
    (m : DatabaseMetric) :
  In m (historical database_id n ms) -> In m ms.
Proof.
  unfold historical. intros H. apply list_elem_of_In in H. apply list_elem_of_In.
  pose proof (elem_of_sublist _ _ _ H (sublist_take _ _)) as H1.
  unfold metrics_of in H1.
  destruct database_id as [z|]; [|exact H1].
  destruct (id_truthy (Some z)); [|exact H1].
  exact (elem_of_sublist _ _ _ H1 (sublist_filter _ _)).
Qed.

Lemma load_rows_cpu_null (hist : list DatabaseMetric) :
  Forall (fun m => cpu_usage m = None) hist -> load_rows hist = [].
Proof.
  induction 1 as [|m hist Hm _ IH]; [reflexivity|].
  unfold load_rows in *. simpl. rewrite Hm. exact IH.
Qed.

Lemma anomaly_rows_cpu_null (hist : list DatabaseMetric) :
  Forall (fun m => cpu_usage m = None) hist -> anomaly_rows hist = [].
Proof.
  induction 1 as [|m hist Hm _ IH]; [reflexivity|].
  unfold anomaly_rows in *. simpl. rewrite Hm. exact IH.
Qed.

Lemma query_time_rows_cpu_null (hist : list DatabaseMetric) :
  Forall (fun m => cpu_usage m = None) hist -> query_time_rows hist = [].
Proof.
  induction 1 as [|m hist Hm _ IH]; [reflexivity|].
  unfold query_time_rows in *. simpl. rewrite Hm. exact IH.
Qed.

Lemma historical_cpu_null (database_id : option Z) (n : nat) (ms : list DatabaseMetric) :
  Forall (fun m => cpu_usage m = None) ms ->
  Forall (fun m => cpu_usage m = None) (historical database_id n ms).
Proof.
  rewrite !List.Forall_forall. intros H m Hm. apply H. exact (historical_in _ _ _ _ Hm).
Qed.

(** The text [str(metrics)] of a collected dict opens with [{'], which
    [json.loads] rejects. *)
Lemma str_dict_metrics_prefix (py_repr : mval -> string) (isoformat : time -> string)
    (s : pg_snapshot) (now : time) :
  exists rest, str_dict py_repr (metrics_dict isoformat s now) = String "{" (String "'" rest).
Proof. eexists. unfold str_dict, metrics_dict. simpl. reflexivity. Qed.

Lemma loads_single_quoted_dict (rest : string) :
  loads (String "{" (String "'" rest)) = None.
Proof. unfold loads. simpl. reflexivity. Qed.

Lemma latest_key_ne_dashboard (db_id : Z) : latest_metrics_key db_id <> dashboard_key db_id.
Proof. unfold latest_metrics_key, dashboard_key. simpl. discriminate. Qed.

(** X6: Every row a run of [collect_metrics_task] adds to
    the metric table has NULL CPU, memory, disk I/O, average query time and
    deadlock columns, so none of the three feature vectors can be built
    from it; a run adds at most one row, at the end. *)
Theorem collect_metrics_task_rows_lack_model_columns
    (reachable : ConnectionConfig -> bool) (snapshot : Pool -> option pg_snapshot)
    (isoformat : time -> string) (py_repr : mval -> string) (db_id : Z) (now : time)
    (w : world) :
  let w' := snd (collect_metrics_task reachable snapshot isoformat py_repr db_id now w) in
  exists new, metric_table w' = metric_table w ++ new /\ length new <= 1 /\
    Forall (fun r : time * DatabaseMetric =>
      fst r = now /\ dm_database_id (snd r) = db_id /\
      cpu_usage (snd r) = None /\ memory_usage (snd r) = None /\ disk_io (snd r) = None /\
      avg_query_time (snd r) = None /\ deadlocks_count (snd r) = None /\
      prepare_load_features (snd r) = None /\ prepare_anomaly_features (snd r) = None /\
      prepare_query_time_features (snd r) = None) new.
Proof.
  intros w'.
  destruct (collect_metrics_task_table reachable snapshot isoformat py_repr db_id now w)
    as [H | [s H]]; fold w' in H.
  - exists []. rewrite H, app_nil_r. split; [reflexivity|]. split; [simpl; lia|].
    constructor.
  - eexists. split; [exact H|]. split; [simpl; lia|].
    constructor; [|constructor]. simpl.
    destruct (stored_metric_of_dict db_id isoformat s now) as (Hid & Hc & Hm & Hd & Ha & Hk).
    unfold prepare_load_features, prepare_anomaly_features, prepare_query_time_features.
    rewrite Hc. repeat split; assumption.
Qed.

(** X7: Starting from an empty metric table, whatever the collector stores
    never trains a model: on any selection of the stored rows, each of the
    three training tasks answers [insufficient_data] or
    [insufficient_valid_data] and writes no file. *)
Theorem collected_metrics_never_train
    (reachable : ConnectionConfig -> bool) (snapshot : Pool -> option pg_snapshot)
    (isoformat : time -> string) (py_repr : mval -> string) (runs : list (Z * time))
    (w : world) (fit_scaler : list (list Q) -> option Artifact)
    (fit_regressor : list (list Q) -> list Q -> option Artifact)
    (fit_isolation_forest : list (list Q) -> option Artifact)
    (database_id : option Z) (ms : list DatabaseMetric) (disk : storage)
    (Hempty : metric_table w = [])
    (Hms : forall m, In m ms ->
       In m (map snd (metric_table (run_collections reachable snapshot isoformat py_repr
                                      runs w)))) :
  let r1 := train_load_predictor fit_scaler fit_regressor database_id ms disk in
  let r2 := train_anomaly_detector fit_scaler fit_isolation_forest database_id ms disk in
  let r3 := train_query_time_predictor fit_scaler fit_regressor database_id ms disk in
  insufficient (fst r1) = true /\ snd r1 = disk /\
  insufficient (fst r2) = true /\ snd r2 = disk /\
  insufficient (fst r3) = true /\ snd r3 = disk.
Proof.
  assert (Hms' : Forall (fun m => cpu_usage m = None) ms).
  { pose proof (run_collections_cpu_null reachable snapshot isoformat py_repr runs w)
      as Hrun.
    rewrite Hempty in Hrun. specialize (Hrun (Forall_nil_2 _)).
    rewrite List.Forall_forall in Hrun |- *. intros m Hm.
    apply Hms, in_map_iff in Hm. destruct Hm as [r [<- Hr]]. exact (Hrun r Hr). }
  intros r1 r2 r3. subst r1 r2 r3.
  unfold train_load_predictor, train_anomaly_detector, train_query_time_predictor.
  rewrite (load_rows_cpu_null _ (historical_cpu_null _ _ _ Hms')),
          (anomaly_rows_cpu_null _ (historical_cpu_null _ _ _ Hms')),
          (query_time_rows_cpu_null _ (historical_cpu_null _ _ _ Hms')).
  repeat match goal with |- context [Nat.ltb (length (historical ?d ?n ms)) ?b] =>
    destruct (Nat.ltb (length (historical d n ms)) b) end; simpl; repeat split.
Qed.


(** X9: After a successful run, Redis holds [str(metrics)] under
    [latest_metrics:<db_id>] for 300 seconds, but that text is not JSON:
    [CacheService.get] on the key answers [None] at every instant.  The
    run also leaves no [dashboard:<db_id>] key. *)
Theorem latest_metrics_never_served
    (reachable : ConnectionConfig -> bool) (snapshot : Pool -> option pg_snapshot)
    (isoformat : time -> string) (py_repr : mval -> string) (db_id : Z) (now : time)
    (w : world) (n : nat)
    (H : fst (collect_metrics_task reachable snapshot isoformat py_repr db_id now w)
         = MSuccess n) :
  let r := rds (snd (collect_metrics_task reachable snapshot isoformat py_repr db_id now w)) in
  (exists txt, (forall now', (now' < now + 300 * 1000000)%Z ->
                  redis_get r (latest_metrics_key db_id) now' = Some txt) /\
               loads txt = None) /\
  (forall now', cache_get r (latest_metrics_key db_id) now' = PNone) /\
  (forall now', redis_get r (dashboard_key db_id) now' = None).
Proof.
  revert H. unfold collect_metrics_task.
  destruct (conns w !! db_id) as [c|]; [|discriminate].
  destruct (negb (dc_is_active c)); [discriminate|].
  destruct (ensure_pool _ _ _ _) as [m|]; [|discriminate].
  unfold collect_performance_metrics.
  destruct (connection_pools m !! db_id) as [p|]; [|discriminate].
  destruct (snapshot p) as [s|]; [|discriminate].
  unfold setex. destruct (redis_up (rds w)) eqn:Hup; [|discriminate].
  unfold redis_delete. simpl. intros _.
  destruct (str_dict_metrics_prefix py_repr isoformat s now) as [rest Hrest].
  rewrite Hrest.
  assert (Hl : forall now', redis_get
     {| redis_up := true;
        redis_kv := delete (dashboard_key db_id)
          (<[latest_metrics_key db_id := (String "{" (String "'" rest), (now + 300 * 1000000)%Z)]>
             (redis_kv (rds w))) |} (latest_metrics_key db_id) now'
     = if (now' <? now + 300 * 1000000)%Z then Some (String "{" (String "'" rest)) else None).
  { intros now'. unfold redis_get. simpl.
    rewrite lookup_delete_ne by (apply not_eq_sym, latest_key_ne_dashboard).
    rewrite lookup_insert_eq. reflexivity. }
  split; [|split].
  - exists (String "{" (String "'" rest)). split; [|apply loads_single_quoted_dict].
    intros now' Hlt. rewrite Hl. apply Z.ltb_lt in Hlt. rewrite Hlt. reflexivity.
  - intros now'. unfold cache_get. simpl. rewrite Hl.
    destruct (now' <? _)%Z; [|reflexivity].
    rewrite bool_decide_eq_false_2 by discriminate. simpl.
    rewrite ?loads_single_quoted_dict. reflexivity.
  - intros now'. unfold redis_get. simpl. rewrite lookup_delete_eq. reflexivity.
Qed.

Lemma collected_metrics_never_train_witness :
  let w := mk_world {[1%Z := mk_conn "db.local" 5432 "app" "monitor" "secret" "prefer"
                              true true "unknown" None]}
             (mk_monitor ∅ 0) [] (mk_redis true ∅) in
  let snap := mk_snapshot 3 5 100 1000 5000 99 7 0 123456 (Some 98%Q) in
  let run := run_collections (fun _ => true) (fun _ => Some snap)
               (fun _ => "2026-01-01T00:00:00") (fun _ => "0")
               [(1%Z, 0%Z); (1%Z, 60000000%Z)] w in
  let ms := map snd (metric_table run) in
  let r1 := train_load_predictor (fun _ => None) (fun _ _ => None) (Some 1%Z) ms ∅ in
  let r2 := train_anomaly_detector (fun _ => None) (fun _ => None) (Some 1%Z) ms ∅ in
  let r3 := train_query_time_predictor (fun _ => None) (fun _ _ => None) (Some 1%Z) ms ∅ in
  insufficient (fst r1) = true /\ snd r1 = ∅ /\
  insufficient (fst r2) = true /\ snd r2 = ∅ /\
  insufficient (fst r3) = true /\ snd r3 = ∅.
Proof.
  intros w snap run ms.
  apply (collected_metrics_never_train (fun _ => true) (fun _ => Some snap)
           (fun _ => "2026-01-01T00:00:00") (fun _ => "0")
           [(1%Z, 0%Z); (1%Z, 60000000%Z)] w (fun _ => None) (fun _ _ => None)
           (fun _ => None) (Some 1%Z) ms ∅).
  - reflexivity.
  - intros m Hm. exact Hm.
Defined.

Lemma latest_metrics_never_served_witness :
  let w := mk_world {[1%Z := mk_conn "db.local" 5432 "app" "monitor" "secret" "prefer"
                              true true "unknown" None]}
             (mk_monitor ∅ 0) [] (mk_redis true ∅) in
  let snap := mk_snapshot 3 5 100 1000 5000 99 7 0 123456 (Some 98%Q) in
  let r := rds (snd (collect_metrics_task (fun _ => true) (fun _ => Some snap)
                       (fun _ => "2026-01-01T00:00:00") (fun _ => "0") 1 0 w)) in
  (exists txt, (forall now', (now' < 0 + 300 * 1000000)%Z ->
                  redis_get r (latest_metrics_key 1) now' = Some txt) /\
               loads txt = None) /\
  (forall now', cache_get r (latest_metrics_key 1) now' = PNone) /\
  (forall now', redis_get r (dashboard_key 1) now' = None).
Proof.
  intros w snap.
  apply (latest_metrics_never_served (fun _ => true) (fun _ => Some snap)
           (fun _ => "2026-01-01T00:00:00") (fun _ => "0") 1 0 w 11).
  vm_compute. reflexivity.
Defined.

Lemma filter_count_split {A} (f : A -> bool) (l : list A) :
  length (List.filter f l) + length (List.filter (fun x => negb (f x)) l) = length l.
Proof. induction l as [|x l IH]; simpl; [reflexivity|]. destruct (f x); simpl; lia. Qed.

Lemma in_schedule_triples (i : Z) (c : DatabaseConnection) x :
  In x ((fun '(i, _) =>
     [("collect_metrics_task", i, 0%Z); ("collect_query_statistics_task", i, 300%Z);
      ("analyze_performance_task", i, 600%Z)]) (i, c)) ->
  x.1.2 = i.
Proof. simpl. intros [<-|[<-|[<-|[]]]]; reflexivity. Qed.

Lemma schedule_flat_map_ids (L : list (Z * DatabaseConnection)) x :
  In x (List.flat_map (fun '(i, _) =>
     [("collect_metrics_task", i, 0%Z); ("collect_query_statistics_task", i, 300%Z);
      ("analyze_performance_task", i, 600%Z)]) L) ->
  In x.1.2 (map fst L).
Proof.
  intros H. apply in_flat_map in H. destruct H as [[i c] [Hin Hx]].
  apply (in_schedule_triples i c) in Hx. rewrite Hx. apply (in_map fst _ (i, c)). exact Hin.
Qed.

Lemma schedule_flat_map_nodup (L : list (Z * DatabaseConnection)) :
  NoDup (map fst L) ->
  NoDup (List.flat_map (fun '(i, _) =>
     [("collect_metrics_task", i, 0%Z); ("collect_query_statistics_task", i, 300%Z);
      ("analyze_performance_task", i, 600%Z)]) L).
Proof.
  induction L as [|[i c] L IH]; intros Hnd; cbn [List.flat_map]; [constructor|].
  apply NoDup_cons in Hnd. destruct Hnd as [Hi Hnd].
  apply NoDup_app. split; [|split; [|exact (IH Hnd)]].
  - repeat constructor; rewrite ?list_elem_of_In; simpl; intuition discriminate.
  - intros x Hx Hx'. apply list_elem_of_In in Hx, Hx'.
    pose proof (in_schedule_triples i c x Hx) as Hid.
    apply schedule_flat_map_ids in Hx'. rewrite Hid in Hx'.
    apply Hi. apply list_elem_of_In. exact Hx'.
Qed.

Lemma nodup_fst_filter (f : Z * DatabaseConnection -> bool) (l : list (Z * DatabaseConnection)) :
  NoDup (map fst l) -> NoDup (map fst (List.filter f l)).
Proof.
  induction l as [|x l IH]; intros Hnd; simpl; [constructor|].
  apply NoDup_cons in Hnd. destruct Hnd as [Hx Hnd].
  destruct (f x); simpl; [|exact (IH Hnd)].
  constructor; [|exact (IH Hnd)].
  rewrite list_elem_of_In. intros Hin. apply Hx. apply list_elem_of_In.
  apply in_map_iff in Hin. destruct Hin as [y [Hy Hin]]. apply filter_In in Hin.
  rewrite <- Hy. apply in_map. apply Hin.
Qed.

(** X10: [schedule_monitoring_tasks] issues exactly three calls per active
    database with automatic monitoring, and no call twice: collection of
    metrics at once, of query statistics after 300 s and the analysis
    after 600 s; the count it reports is the number of such databases. *)
Theorem schedule_monitoring_tasks_calls (cs : gmap Z DatabaseConnection) :
  let '(count, calls) := schedule_monitoring_tasks cs in
  length calls = 3 * count /\ NoDup calls /\
  (forall task i countdown, In (task, i, countdown) calls <->
     (exists c, cs !! i = Some c /\ dc_is_active c = true /\ dc_auto_monitoring c = true) /\
     In (task, countdown) [("collect_metrics_task", 0%Z);
                           ("collect_query_statistics_task", 300%Z);
                           ("analyze_performance_task", 600%Z)]).
Proof.
  unfold schedule_monitoring_tasks.
  set (L := List.filter _ (map_to_list cs)).
  split; [|split].
  - clear. induction L as [|[i c] L IH]; simpl; [reflexivity|]. lia.
  - apply schedule_flat_map_nodup, nodup_fst_filter, NoDup_fst_map_to_list.
  - intros task i countdown. rewrite in_flat_map. split.
    + intros [[j c] [Hin Hx]].
      pose proof (in_schedule_triples j c _ Hx) as Hj. simpl in Hj. subst j.
      subst L. apply filter_In in Hin. destruct Hin as [Hin Hf].
      apply andb_prop in Hf. split.
      * exists c. split; [|exact Hf].
        apply elem_of_map_to_list, list_elem_of_In. exact Hin.
      * simpl in Hx |- *. intuition congruence.
    + intros [[c [Hc [Ha Hm]]] Ht]. exists (i, c). split.
      * subst L. apply filter_In. split.
        -- apply list_elem_of_In, elem_of_map_to_list. exact Hc.
        -- rewrite Ha, Hm. reflexivity.
      * simpl in Ht |- *. intuition congruence.
Qed.

(** X11: [cleanup_old_data_task] at instant [now]: each reported count plus the
    rows left is the size of the table before; a metric row stays exactly
    when it is at most 30 days old; an alert stays exactly when it is not
    resolved, has no [resolved_at], or was resolved at most 7 days ago; a
    recommendation stays exactly when it is not applied, has no
    [applied_at], or was applied at most 30 days ago. *)
Theorem cleanup_old_data_task_retention (now : time) (t : cleanup_tables) :
  let '((old_metrics, old_alerts, old_recommendations), t') := cleanup_old_data_task now t in
  old_metrics + length (t_metrics t') = length (t_metrics t) /\
  old_alerts + length (t_alerts t') = length (t_alerts t) /\
  old_recommendations + length (t_recommendations t') = length (t_recommendations t) /\
  (forall r, In r (t_metrics t') <-> In r (t_metrics t) /\ (now - 30 * day <= fst r)%Z) /\
  (forall a, In a (t_alerts t') <->
     In a (t_alerts t) /\
     (is_resolved (fst a) = false \/ snd a = None \/
      exists ra, snd a = Some ra /\ (now - 7 * day <= ra)%Z)) /\
  (forall r, In r (t_recommendations t') <->
     In r (t_recommendations t) /\
     (is_applied r = false \/ applied_at r = None \/
      exists ta, applied_at r = Some ta /\ (now - 30 * day <= ta)%Z)).
Proof.
  unfold cleanup_old_data_task. simpl.
  split; [apply filter_count_split|]. split; [apply filter_count_split|].
  split; [apply filter_count_split|].
  split; [|split].
  - intros r. rewrite filter_In. apply and_iff_compat_l.
    rewrite negb_true_iff, Z.ltb_ge. reflexivity.
  - intros a. rewrite filter_In. apply and_iff_compat_l.
    rewrite negb_true_iff, andb_false_iff. unfold sql_lt.
    destruct (snd a) as [ra|]; split.
    + intros [H|H]; [left; exact H|]. right; right. exists ra.
      split; [reflexivity|]. apply Z.ltb_ge. exact H.
    + intros [H|[H|[ra' [H1 H2]]]]; [left; exact H|discriminate|].
      injection H1 as <-. right. apply Z.ltb_ge. exact H2.
    + intros _. right; left. reflexivity.
    + intros _. right. reflexivity.
  - intros r. rewrite filter_In. apply and_iff_compat_l.
    rewrite negb_true_iff, andb_false_iff. unfold sql_lt.
    destruct (applied_at r) as [ta|]; split.
    + intros [H|H]; [left; exact H|]. right; right. exists ta.
      split; [reflexivity|]. apply Z.ltb_ge. exact H.
    + intros [H|[H|[ta' [H1 H2]]]]; [left; exact H|discriminate|].
      injection H1 as <-. right. apply Z.ltb_ge. exact H2.
    + intros _. right; left. reflexivity.
    + intros _. right. reflexivity.
Qed.

End TasksFacts.

(* ------------------------------------------------------------------ *)
(** ** Facts about the Redis operations and the cache keys *)
Module RedisFacts.
Import Stdlib.Strings.Ascii.
Import Cache RedisOps Tasks.

Lemma remove_dups_nodup (l : list string) : NoDup l -> remove_dups l = l.
Proof.
  induction 1 as [|x l Hx _ IH]; [reflexivity|]. simpl.
  case_decide as Hd; [contradiction|]. rewrite IH. reflexivity.
Qed.

Lemma nodup_list_filter (f : string -> bool) (l : list string) :
  NoDup l -> NoDup (List.filter f l).
Proof.
  induction 1 as [|x l Hx _ IH]; simpl; [constructor|].
  destruct (f x); [|exact IH]. constructor; [|exact IH].
  rewrite list_elem_of_In, filter_In. intros [Hin _]. apply Hx, list_elem_of_In, Hin.
Qed.

Lemma filter_all_true (f : string -> bool) (l : list string) :
  (forall x, In x l -> f x = true) -> List.filter f l = l.
Proof.
  induction l as [|x l IH]; intros H; simpl; [reflexivity|].
  rewrite (H x (or_introl eq_refl)). f_equal. apply IH. intros y Hy. apply H. right. exact Hy.
Qed.

Lemma lookup_foldr_delete_notin (keys : list string) (m : gmap string (string * time))
    (k : string) :
  ~ In k keys -> foldr delete m keys !! k = m !! k.
Proof.
  induction keys as [|k' keys IH]; intros Hk; simpl; [reflexivity|].
  rewrite lookup_delete_ne by (intros ->; apply Hk; left; reflexivity).
  apply IH. intros H. apply Hk. right. exact H.
Qed.

Lemma lookup_foldr_delete_in (keys : list string) (m : gmap string (string * time))
    (k : string) :
  In k keys -> foldr delete m keys !! k = None.
Proof.
  induction keys as [|k' keys IH]; intros Hk; simpl; [destruct Hk|].
  destruct (decide (k = k')) as [->|Hne]; [apply lookup_delete_eq|].
  rewrite lookup_delete_ne by congruence. apply IH.
  destruct Hk as [->|Hk]; [congruence|exact Hk].
Qed.

Lemma redis_keys_nodup (glob_match : string -> string -> bool) (r : redis) (pattern : string)
    (now : time) : NoDup (redis_keys glob_match r pattern now).
Proof. apply nodup_list_filter, NoDup_fst_map_to_list. Qed.

Lemma in_redis_keys (glob_match : string -> string -> bool) (r : redis) (pattern k : string)
    (now : time) :
  In k (redis_keys glob_match r pattern now) <->
  glob_match pattern k = true /\ redis_get r k now <> None.
Proof.
  unfold redis_keys. rewrite filter_In, andb_true_iff. split.
  - intros [Hin [Hg Hl]]. split; [exact Hg|]. destruct (redis_get r k now); congruence.
  - intros [Hg Hl]. split; [|split; [exact Hg|destruct (redis_get r k now); congruence]].
    unfold redis_get in Hl. destruct (redis_kv r !! k) as [[v e]|] eqn:Hk; [|congruence].
    apply in_map_iff. exists (k, (v, e)). split; [reflexivity|].
    apply list_elem_of_In, elem_of_map_to_list. exact Hk.
Qed.

(** A key that is not live at [now] stays dead later. *)
Lemma redis_get_dead_later (r : redis) (k : string) (now now' : time) :
  redis_get r k now = None -> (now <= now')%Z -> redis_get r k now' = None.
Proof.
  unfold redis_get. destruct (redis_kv r !! k) as [[v e]|]; [|reflexivity].
  intros H Hle. destruct (now <? e)%Z eqn:He; [discriminate|].
  apply Z.ltb_ge in He. destruct (now' <? e)%Z eqn:He'; [apply Z.ltb_lt in He'; lia|reflexivity].
Qed.

(** [CacheService.get] reads only whether Redis is up and the entry of the key. *)
Lemma cache_get_same_entry (r r' : redis) (key : string) (now : time) :
  redis_up r' = redis_up r -> redis_kv r' !! key = redis_kv r !! key ->
  cache_get r' key now = cache_get r key now.
Proof. intros Hu Hk. unfold cache_get, redis_get. rewrite Hu, Hk. reflexivity. Qed.

Lemma hexdigest_head (c : Ascii.ascii) (s : string) :
  is_hexdigest (String c s) = true -> hex_digit c = true.
Proof.
  unfold is_hexdigest. simpl. rewrite !andb_true_iff. intros [_ [H _]]. exact H.
Qed.

Lemma hexdigest_not_dashboard (db_id : Z) : is_hexdigest (dashboard_key db_id) = false.
Proof. unfold is_hexdigest, dashboard_key. simpl. apply andb_false_r. Qed.

(** X12: [CacheService.delete(key)]: with Redis up it answers 1 when the key
    was live and 0 otherwise, and afterwards the key has no entry while
    every other key keeps its entry; with Redis down it answers [False]
    and changes nothing. *)
Theorem cache_delete_effect (r : redis) (key : string) (now : time) :
  let '(res, r') := cache_delete r key now in
  if redis_up r then
    res = Some (match redis_get r key now with Some _ => 1%nat | None => 0%nat end) /\
    redis_up r' = true /\ redis_kv r' !! key = None /\
    (forall k, k <> key -> redis_kv r' !! k = redis_kv r !! k)
  else res = None /\ r' = r.
Proof.
  unfold cache_delete, redis_delete.
  destruct (redis_up r); [|split; reflexivity].
  simpl. split; [|split; [reflexivity|split]].
  - destruct (redis_get r key now); reflexivity.
  - apply lookup_delete_eq.
  - intros k Hk. apply lookup_delete_ne. congruence.
Qed.

(** X13: [CacheService.delete_pattern(pattern)]: with Redis up it answers the
    number of live keys [KEYS] returned, each counted once; afterwards no
    matching key is live at [now] or later, and every key the pattern does
    not match keeps its entry.  With Redis down it answers 0 and changes
    nothing. *)
Theorem delete_pattern_effect (glob_match : string -> string -> bool) (r : redis)
    (pattern : string) (now : time) :
  let '(n, r') := delete_pattern glob_match r pattern now in
  if redis_up r then
    n = length (redis_keys glob_match r pattern now) /\ redis_up r' = true /\
    (forall k now', glob_match pattern k = true -> (now <= now')%Z ->
                    redis_get r' k now' = None) /\
    (forall k, glob_match pattern k = false -> redis_kv r' !! k = redis_kv r !! k)
  else n = 0%nat /\ r' = r.
Proof.
  unfold delete_pattern.
  destruct (redis_up r) eqn:Hup; [|split; reflexivity]. simpl.
  set (keys := redis_keys glob_match r pattern now).
  assert (Hdead : forall k now', glob_match pattern k = true -> (now <= now')%Z ->
                    ~ In k keys -> redis_get r k now' = None).
  { intros k now' Hg Hle Hn. apply (redis_get_dead_later r k now); [|exact Hle].
    destruct (redis_get r k now) eqn:Hk; [|reflexivity].
    exfalso. apply Hn. apply in_redis_keys. rewrite Hk. split; [exact Hg|discriminate]. }
  case_bool_decide as Hnil.
  - rewrite Hnil. split; [reflexivity|]. split; [exact Hup|]. split; [|reflexivity].
    intros k now' Hg Hle. apply Hdead; [exact Hg|exact Hle|]. rewrite Hnil. intros [].
  - unfold redis_delete. rewrite Hup. simpl.
    split; [|split; [reflexivity|split]].
    + rewrite remove_dups_nodup by apply redis_keys_nodup.
      rewrite filter_all_true; [reflexivity|].
      intros k Hk. apply in_redis_keys in Hk. destruct Hk as [_ Hk].
      destruct (redis_get r k now); congruence.
    + intros k now' Hg Hle. destruct (In_dec String.string_dec k keys) as [Hin|Hn].
      * unfold redis_get. simpl. rewrite lookup_foldr_delete_in by exact Hin. reflexivity.
      * unfold redis_get. simpl. rewrite lookup_foldr_delete_notin by exact Hn.
        exact (Hdead k now' Hg Hle Hn).
    + intros k Hg. apply lookup_foldr_delete_notin.
      intros Hin. apply in_redis_keys in Hin. destruct Hin as [Hg' _]. congruence.
Qed.

(** A key whose first character is not a hexadecimal digit is never a
    cache key: no glob pattern starting with that character selects one. *)
Lemma hexdigest_not_selected (glob_match : string -> string -> bool) (r : redis)
    (c : Ascii.ascii) (rest key : string) (now : time)
    (Hglob : forall c rest k, ~ In c ["*"%char; "?"%char; "["%char; "\"%char] ->
               glob_match (String c rest) k = true -> exists k', k = String c k')
    (Hc : ~ In c ["*"%char; "?"%char; "["%char; "\"%char])
    (Hhex : hex_digit c = false) (Hkey : is_hexdigest key = true) :
  ~ In key (redis_keys glob_match r (String c rest) now).
Proof.
  intros Hin. apply in_redis_keys in Hin. destruct Hin as [Hg _].
  destruct (Hglob c rest key Hc Hg) as [k' ->].
  apply hexdigest_head in Hkey. congruence.
Qed.

(** X14: The cache invalidations of the code never reach a response cached by
    [cache_response]: those keys are MD5 hex digests, while
    [collect_metrics_task] deletes [dashboard:<id>],
    [collect_query_statistics_task] deletes the keys matching
    [queries:<id>:*] and [create_database] deletes those matching
    [get_databases:*].  Whatever Redis holds, [CacheService.get] of a
    cache key reads the same before and after each of them (assuming only
    that a glob pattern opening with an ordinary character matches only
    keys opening with it). *)
Theorem invalidations_never_evict_cached_responses
    (md5_hexdigest : string -> string) (glob_match : string -> string -> bool)
    (func_name url method : string) (args_repr : option string)
    (r : redis) (db_id : Z) (now now' : time)
    (Hmd5 : forall s, is_hexdigest (md5_hexdigest s) = true)
    (Hglob : forall c rest k, ~ In c ["*"%char; "?"%char; "["%char; "\"%char] ->
               glob_match (String c rest) k = true -> exists k', k = String c k') :
  let key := generate_cache_key md5_hexdigest func_name url method args_repr in
  (forall n r', redis_delete r [dashboard_key db_id] now = Some (n, r') ->
     cache_get r' key now' = cache_get r key now') /\
  (forall r', scan_delete glob_match r (queries_pattern db_id) now = Some r' ->
     cache_get r' key now' = cache_get r key now') /\
  cache_get (snd (delete_pattern glob_match r "get_databases:*" now)) key now'
    = cache_get r key now'.
Proof.
  intros key.
  assert (Hkey : is_hexdigest key = true) by apply Hmd5.
  assert (Hspecial : forall c, In c ["q"%char; "g"%char] ->
            ~ In c ["*"%char; "?"%char; "["%char; "\"%char]).
  { intros c Hc Hin. simpl in Hc, Hin.
    destruct Hc as [<-|[<-|[]]]; destruct Hin as [H|[H|[H|[H|[]]]]]; discriminate. }
  split; [|split].
  - intros n r'. unfold redis_delete.
    destruct (redis_up r) eqn:Hup; [|discriminate].
    intros H. injection H as _ <-.
    apply cache_get_same_entry; [simpl; congruence|]. simpl.
    apply lookup_delete_ne. intros Heq.
    pose proof (hexdigest_not_dashboard db_id) as Hd. congruence.
  - intros r'. unfold scan_delete.
    destruct (redis_up r) eqn:Hup; [|discriminate].
    intros H. injection H as <-.
    apply cache_get_same_entry; [simpl; congruence|]. simpl.
    apply lookup_foldr_delete_notin.
    unfold queries_pattern. simpl.
    apply (hexdigest_not_selected glob_match r "q"%char); [exact Hglob| |reflexivity|exact Hkey].
    apply Hspecial. simpl. auto.
  - unfold delete_pattern.
    destruct (redis_up r) eqn:Hup; [|reflexivity]. simpl.
    case_bool_decide; [reflexivity|].
    unfold redis_delete. rewrite Hup. simpl.
    apply cache_get_same_entry; [simpl; congruence|]. simpl.
    apply lookup_foldr_delete_notin.
    apply (hexdigest_not_selected glob_match r "g"%char); [exact Hglob| |reflexivity|exact Hkey].
    apply Hspecial. simpl. auto.
Qed.

Lemma invalidations_never_evict_cached_responses_witness :
  let md5 := fun _ : string => "0123456789abcdef0123456789abcdef" in
  let glob := fun p k : string => bool_decide (p = k) in
  let r := mk_redis true {["0123456789abcdef0123456789abcdef" := ("[1, 2]", 600000000%Z);
                           "dashboard:1" := ("{}", 600000000%Z)]} in
  let key := generate_cache_key md5 "get_databases" "http://localhost/api/databases" "GET" None in
  (forall n r', redis_delete r [dashboard_key 1] 0 = Some (n, r') ->
     cache_get r' key 1 = cache_get r key 1) /\
  (forall r', scan_delete glob r (queries_pattern 1) 0 = Some r' ->
     cache_get r' key 1 = cache_get r key 1) /\
  cache_get (snd (delete_pattern glob r "get_databases:*" 0)) key 1 = cache_get r key 1.
Proof.
  intros md5 glob r.
  apply (invalidations_never_evict_cached_responses md5 glob "get_databases"
           "http://localhost/api/databases" "GET" None r 1 0 1).
  - intros s. reflexivity.
  - intros c rest k _ H. apply bool_decide_eq_true in H. subst k. exists rest. reflexivity.
Defined.

(** X15: The [cache_response] wrapper serves a stored result for at most
    [timeout] seconds: once the function has run and its result was
    stored at [now], a call at [now + timeout] seconds or later finds no
    entry, runs the function again and stores the new result.  When Redis
    is down, every call runs the function and nothing is stored. *)
Theorem cache_response_entry_expires (timeout : Z) (key : string) (result1 result2 : pyval)
    (r : redis) (now now' : time)
    (Hpos : (0 < timeout)%Z) (Hlate : (now + timeout * 1000000 <= now')%Z) :
  (let '(_, ran, r1) := cache_response timeout key result1 r now in
   redis_up r = true -> ran = true ->
   cache_response timeout key result2 r1 now' =
   (result2, true, snd (cache_set r1 key result2 (Some timeout) now'))) /\
  (redis_up r = false -> cache_response timeout key result1 r now = (result1, true, r)).
Proof.
  assert (Hto : (timeout =? 0)%Z = false) by (apply Z.eqb_neq; lia).
  split.
  - unfold cache_response at 1.
    destruct (truthy (cache_get r key now)) eqn:Ht; [simpl; intros _ H; discriminate|].
    unfold cache_set at 1. destruct (redis_up r) eqn:Hup; simpl; [|intros H; discriminate].
    intros _ _. unfold cache_response, cache_set. simpl. rewrite Hto.
    assert (Hmiss : cache_get {| redis_up := true;
       redis_kv := <[key:=(dumps result1, now + timeout * 1000000)]> (redis_kv r) |}
       key now' = PNone).
    { unfold cache_get, redis_get. simpl. rewrite lookup_insert_eq.
      destruct (now' <? now + timeout * 1000000)%Z eqn:Hlt; [|reflexivity].
      apply Z.ltb_lt in Hlt. lia. }
    rewrite Hmiss. reflexivity.
  - intros Hdown. unfold cache_response, cache_get, cache_set. rewrite Hdown. reflexivity.
Qed.

Lemma cache_response_entry_expires_witness :
  let r := mk_redis true ∅ in
  (let '(_, ran, r1) := cache_response 60 "k" (PInt 1) r 0 in
   redis_up r = true -> ran = true ->
   cache_response 60 "k" (PInt 2) r1 60000000 =
   (PInt 2, true, snd (cache_set r1 "k" (PInt 2) (Some 60) 60000000))) /\
  (redis_up r = false -> cache_response 60 "k" (PInt 1) r 0 = (PInt 1, true, r)).
Proof.
  intros r. apply (cache_response_entry_expires 60 "k" (PInt 1) (PInt 2) r 0 60000000); lia.
Defined.

End RedisFacts.

(* ------------------------------------------------------------------ *)
(** ** Facts about the recommendations and the trend analysis *)
Module RecsFacts.
Import Store Serving Recs.




#[local] Abbreviation Nq i := (inject_Z (Z.of_nat i)).











(** A NULL [avg_query_time] on the newest row never produces an anomaly
    alert ([_prepare_anomaly_features] needs it). *)
Lemma detect_anomalies_null_avg transform predict decision_function disk now latest
    database_id st alerts :
  avg_query_time latest = None ->
  snd (detect_anomalies transform predict decision_function disk now latest database_id
         st alerts) = alerts.
Proof.
  intros Havg. unfold detect_anomalies.
  destruct (lookup_pair _ _ _ _ _ _ _ _) as [[model scaler] st'].
  destruct model, scaler; try reflexivity.
  unfold prepare_anomaly_features. rewrite Havg.
  destruct (cpu_usage latest), (memory_usage latest), (active_connections latest);
    reflexivity.
Qed.

(** X17: When the newest row of the database has a NULL [avg_query_time] and
    the query-time model answers a non-zero prediction,
    [latest_metrics.avg_query_time * 1.5] raises and
    [generate_ml_recommendations] returns no recommendation at all: the
    load and trend recommendations are lost with it.  No alert is added
    on that path. *)
Theorem generate_ml_recommendations_null_avg
    (transform : Artifact -> list (list Q) -> option (list (list Q)))
    (predict decision_function : Artifact -> list (list Q) -> option (list Q))
    (disk : storage) (now : time) (table : list (time * DatabaseMetric))
    (database_id : Z) (st : analyzer) (alerts : list Alert)
    (latest : DatabaseMetric) (older : list DatabaseMetric) (p : Q)
    (Hlatest : List.filter (fun m => bool_decide (dm_database_id m = database_id))
                 (map snd table) = latest :: older)
    (Havg : avg_query_time latest = None)
    (Hp : fst (predict_query_time transform predict disk now latest (Some database_id)
            (snd (fst (detect_anomalies transform predict decision_function disk now latest
                         (Some database_id)
                         (snd (predict_load transform predict disk (map snd table) now
                                 latest (Some database_id) st))
                         alerts)))) = Some p)
    (Hnz : Qeq_bool p 0 = false) :
  let '(recs, _, alerts') :=
    generate_ml_recommendations transform predict decision_function disk now table
      database_id st alerts in
  recs = [] /\ alerts' = alerts.
Proof.
  unfold generate_ml_recommendations. rewrite Hlatest.
  destruct (predict_load _ _ _ _ _ _ _ _) as [pl st1] eqn:E1.
  destruct (detect_anomalies _ _ _ _ _ _ _ _ _) as [[ar st2] alerts2] eqn:E2.
  destruct (predict_query_time _ _ _ _ _ _ _) as [pq st3] eqn:E3.
  simpl in Hp, E2. subst pq.
  pose proof (detect_anomalies_null_avg transform predict decision_function disk now latest
                (Some database_id) st1 alerts Havg) as Ha.
  rewrite E2 in Ha. simpl in Ha.
  rewrite Hnz, Havg. split; [reflexivity|exact Ha].
Qed.

Lemma generate_ml_recommendations_null_avg_witness :
  let latest := mk_metric 1 (Some 50%Q) (Some 60%Q) (Some 10%Q) (Some 20%Q) (Some 95%Q) None
                  (Some 0%Q) (Some 0%Q) in
  let disk : storage := {[db_file "query_time_predictor" 1 := mk_artifact 1;
                          db_file "query_time_scaler" 1 := mk_artifact 2]} in
  let '(recs, _, alerts') :=
    generate_ml_recommendations (fun _ x => Some x) (fun _ _ => Some [5%Q])
      (fun _ _ => None) disk 0 [(0%Z, latest)] 1 init_analyzer [] in
  recs = [] /\ alerts' = [].
Proof.
  intros latest disk.
  apply (generate_ml_recommendations_null_avg (fun _ x => Some x) (fun _ _ => Some [5%Q])
           (fun _ _ => None) disk 0 [(0%Z, latest)] 1 init_analyzer [] latest [] 5).
  - vm_compute. reflexivity.
  - reflexivity.
  - vm_compute. reflexivity.
  - reflexivity.
Defined.

End RecsFacts.

(* ------------------------------------------------------------------ *)
(** ** Model files: from training to serving, and their cleanup *)
Module ModelFilesFacts.
Import Stdlib.Strings.Ascii.
Import Store Serving Training ModelFiles.

(** A key the analyzer has never cached is read from the storage. *)
Lemma get_cached_model_fresh (disk : storage) (now : time) (key path : string)
    (st : analyzer) (m : Artifact) :
  last_cache_update st !! key = None -> disk !! path = Some m ->
  get_cached_model disk now key path st =
    (Some m, mk_analyzer (<[key := m]> (models_cache st))
                         (<[key := now]> (last_cache_update st))).
Proof. intros H1 H2. unfold get_cached_model, load_model. rewrite H1, H2. reflexivity. Qed.

(** Both files present and neither key cached: [lookup_pair] serves the
    stored model and scaler. *)
Lemma lookup_pair_fresh (disk : storage) (now : time) (db : option Z)
    (mname sname : string) (mfile sfile : model_paths -> string) (st : analyzer)
    (m s : Artifact) :
  model_key mname db <> model_key sname db ->
  last_cache_update st !! model_key mname db = None ->
  last_cache_update st !! model_key sname db = None ->
  disk !! mfile (get_model_paths db) = Some m ->
  disk !! sfile (get_model_paths db) = Some s ->
  fst (lookup_pair disk now db mname sname mfile sfile st) = (Some m, Some s).
Proof.
  intros Hk Hm Hs Hdm Hds. unfold lookup_pair.
  rewrite (get_cached_model_fresh _ _ _ _ _ m Hm Hdm).
  rewrite (get_cached_model_fresh _ _ _ _ _ s); [reflexivity| |exact Hds].
  cbn [last_cache_update]. rewrite lookup_insert_ne by congruence. exact Hs.
Qed.

Ltac keys_differ db :=
  let Heq := fresh in
  intros Heq; unfold model_key in Heq; destruct db as [z|]; cbn in Heq;
  [destruct (z =? 0); cbn in Heq|]; discriminate Heq.

Ltac files_differ :=
  cbv [db_file MODEL_DIR]; cbn; discriminate.

(** The trainers' scaler and model files never coincide. *)
Lemma model_paths_distinct (db : option Z) :
  anomaly_scaler (get_model_paths db) <> anomaly_detector (get_model_paths db) /\
  query_time_scaler (get_model_paths db) <> query_time_predictor (get_model_paths db).
Proof.
  unfold get_model_paths. destruct db as [z|]; [destruct (id_truthy (Some z))|];
    cbn [anomaly_scaler anomaly_detector query_time_scaler query_time_predictor];
    split; files_differ.
Qed.

(** The paths [train_anomaly_detector] and [train_query_time_predictor]
    write are those of [get_model_paths]. *)
Lemma anomaly_train_paths (database_id : option Z) :
  match database_id with
  | Some z => if id_truthy database_id
              then (db_file "anomaly_detector" z, db_file "anomaly_scaler" z)
              else ("ml_models/anomaly_detector.pkl", "ml_models/anomaly_scaler.pkl")
  | None => ("ml_models/anomaly_detector.pkl", "ml_models/anomaly_scaler.pkl")
  end = (anomaly_detector (get_model_paths database_id),
         anomaly_scaler (get_model_paths database_id)).
Proof.
  unfold get_model_paths. destruct database_id as [z|]; [destruct (id_truthy (Some z))|];
    reflexivity.
Qed.

Lemma query_time_train_paths (database_id : option Z) :
  match database_id with
  | Some z => if id_truthy database_id
              then (db_file "query_time_predictor" z, db_file "query_time_scaler" z)
              else ("ml_models/query_time_predictor.pkl", "ml_models/query_time_scaler.pkl")
  | None => ("ml_models/query_time_predictor.pkl", "ml_models/query_time_scaler.pkl")
  end = (query_time_predictor (get_model_paths database_id),
         query_time_scaler (get_model_paths database_id)).
Proof.
  unfold get_model_paths. destruct database_id as [z|]; [destruct (id_truthy (Some z))|];
    reflexivity.
Qed.

(** X18: Training then serving, load predictor: when [train_load_predictor]
    succeeds, the path it reports is the [load_predictor] path of
    [get_model_paths], and an analyzer that has not cached the two keys
    ([OptimizedPerformanceAnalyzer] started afresh) serves exactly the
    regressor and scaler just fitted on the training rows. *)
Theorem train_load_predictor_served
    (fit_scaler : list (list Q) -> option Artifact)
    (fit_regressor : list (list Q) -> list Q -> option Artifact)
    (database_id : option Z) (metrics : list DatabaseMetric) (disk disk' : storage)
    (model_path : string) (now : time) (st : analyzer)
    (Htrain : train_load_predictor fit_scaler fit_regressor database_id metrics disk
              = (Trained model_path, disk'))
    (Hfresh_m : last_cache_update st !! model_key "load_predictor" database_id = None)
    (Hfresh_s : last_cache_update st !! model_key "load_scaler" database_id = None) :
  let rows := load_rows (historical database_id 10000 metrics) in
  model_path = load_predictor (get_model_paths database_id) /\
  exists model scaler,
    fit_scaler (map fst rows) = Some scaler /\
    fit_regressor (map fst rows) (map snd rows) = Some model /\
    fst (lookup_pair disk' now database_id "load_predictor" "load_scaler"
           load_predictor load_scaler st) = (Some model, Some scaler).
Proof.
  unfold train_load_predictor in Htrain. cbv zeta in Htrain.
  destruct (Nat.ltb (length (historical database_id 10000 metrics)) MIN_TRAIN_SIZE);
    [discriminate|].
  destruct (Nat.ltb (length (load_rows (historical database_id 10000 metrics)))
              MIN_TRAIN_SIZE); [discriminate|].
  destruct (fit_scaler (map fst (load_rows (historical database_id 10000 metrics))))
    as [scaler|] eqn:Es; [|discriminate].
  destruct (fit_regressor (map fst (load_rows (historical database_id 10000 metrics)))
              (map snd (load_rows (historical database_id 10000 metrics))))
    as [model|] eqn:Er; [|discriminate].
  injection Htrain as <- <-. intros rows.
  assert (Hk : model_key "load_predictor" database_id <> model_key "load_scaler" database_id)
    by keys_differ database_id.
  split.
  - unfold get_model_paths. destruct database_id as [z|]; [destruct (id_truthy (Some z))|];
      reflexivity.
  - exists model, scaler. split; [exact Es|]. split; [exact Er|].
    apply lookup_pair_fresh; [exact Hk|exact Hfresh_m|exact Hfresh_s| |].
    + unfold get_model_paths. destruct database_id as [z|];
        [destruct (id_truthy (Some z))|]; cbn [load_predictor];
        rewrite lookup_insert_ne by files_differ; apply lookup_insert_eq.
    + unfold get_model_paths. destruct database_id as [z|];
        [destruct (id_truthy (Some z))|]; cbn [load_scaler]; apply lookup_insert_eq.
Qed.

(** X19: Training then serving, anomaly detector: when [train_anomaly_detector]
    succeeds, the reported path is the [anomaly_detector] path of
    [get_model_paths], and an analyzer that has not cached the two keys
    serves exactly the isolation forest and scaler just fitted. *)
Theorem train_anomaly_detector_served
    (fit_scaler : list (list Q) -> option Artifact)
    (fit_isolation_forest : list (list Q) -> option Artifact)
    (database_id : option Z) (metrics : list DatabaseMetric) (disk disk' : storage)
    (model_path : string) (now : time) (st : analyzer)
    (Htrain : train_anomaly_detector fit_scaler fit_isolation_forest database_id metrics disk
              = (Trained model_path, disk'))
    (Hfresh_m : last_cache_update st !! model_key "anomaly_detector" database_id = None)
    (Hfresh_s : last_cache_update st !! model_key "anomaly_scaler" database_id = None) :
  let rows := anomaly_rows (historical database_id 5000 metrics) in
  model_path = anomaly_detector (get_model_paths database_id) /\
  exists model scaler,
    fit_scaler rows = Some scaler /\
    fit_isolation_forest rows = Some model /\
    fst (lookup_pair disk' now database_id "anomaly_detector" "anomaly_scaler"
           anomaly_detector anomaly_scaler st) = (Some model, Some scaler).
Proof.
  unfold train_anomaly_detector in Htrain. cbv zeta in Htrain.
  destruct (Nat.ltb (length (historical database_id 5000 metrics)) MIN_TRAIN_SIZE);
    [discriminate|].
  destruct (Nat.ltb (length (anomaly_rows (historical database_id 5000 metrics)))
              MIN_TRAIN_SIZE); [discriminate|].
  destruct (fit_scaler (anomaly_rows (historical database_id 5000 metrics)))
    as [scaler|] eqn:Es; [|discriminate].
  destruct (fit_isolation_forest (anomaly_rows (historical database_id 5000 metrics)))
    as [model|] eqn:Ef; [|discriminate].
  rewrite anomaly_train_paths in Htrain. cbv beta iota in Htrain.
  injection Htrain as <- <-. intros rows.
  assert (Hk : model_key "anomaly_detector" database_id
               <> model_key "anomaly_scaler" database_id) by keys_differ database_id.
  split; [reflexivity|].
  exists model, scaler. split; [exact Es|]. split; [exact Ef|].
  apply lookup_pair_fresh; [exact Hk|exact Hfresh_m|exact Hfresh_s| |].
  - rewrite lookup_insert_ne by apply (model_paths_distinct database_id).
    apply lookup_insert_eq.
  - apply lookup_insert_eq.
Qed.

(** X20: Training then serving, query-time predictor: when
    [train_query_time_predictor] succeeds, the reported path is the
    [query_time_predictor] path of [get_model_paths], and an analyzer that
    has not cached the two keys serves exactly the regressor and scaler
    just fitted. *)
Theorem train_query_time_predictor_served
    (fit_scaler : list (list Q) -> option Artifact)
    (fit_regressor : list (list Q) -> list Q -> option Artifact)
    (database_id : option Z) (metrics : list DatabaseMetric) (disk disk' : storage)
    (model_path : string) (now : time) (st : analyzer)
    (Htrain : train_query_time_predictor fit_scaler fit_regressor database_id metrics disk
              = (Trained model_path, disk'))
    (Hfresh_m : last_cache_update st !! model_key "query_time_predictor" database_id = None)
    (Hfresh_s : last_cache_update st !! model_key "query_time_scaler" database_id = None) :
  let rows := query_time_rows (historical database_id 5000 metrics) in
  model_path = query_time_predictor (get_model_paths database_id) /\
  exists model scaler,
    fit_scaler (map fst rows) = Some scaler /\
    fit_regressor (map fst rows) (map snd rows) = Some model /\
    fst (lookup_pair disk' now database_id "query_time_predictor" "query_time_scaler"
           query_time_predictor query_time_scaler st) = (Some model, Some scaler).
Proof.
  unfold train_query_time_predictor in Htrain. cbv zeta in Htrain.
  destruct (Nat.ltb (length (historical database_id 5000 metrics)) MIN_TRAIN_SIZE);
    [discriminate|].
  destruct (Nat.ltb (length (query_time_rows (historical database_id 5000 metrics)))
              MIN_TRAIN_SIZE); [discriminate|].
  destruct (fit_scaler (map fst (query_time_rows (historical database_id 5000 metrics))))
    as [scaler|] eqn:Es; [|discriminate].
  destruct (fit_regressor (map fst (query_time_rows (historical database_id 5000 metrics)))
              (map snd (query_time_rows (historical database_id 5000 metrics))))
    as [model|] eqn:Er; [|discriminate].
  rewrite query_time_train_paths in Htrain. cbv beta iota in Htrain.
  injection Htrain as <- <-. intros rows.
  assert (Hk : model_key "query_time_predictor" database_id
               <> model_key "query_time_scaler" database_id) by keys_differ database_id.
  split; [reflexivity|].
  exists model, scaler. split; [exact Es|]. split; [exact Er|].
  apply lookup_pair_fresh; [exact Hk|exact Hfresh_m|exact Hfresh_s| |].
  - rewrite lookup_insert_ne by apply (model_paths_distinct database_id).
    apply lookup_insert_eq.
  - apply lookup_insert_eq.
Qed.






Lemma train_load_predictor_served_witness :
  let metrics := repeat (mk_metric 1 (Some 10%Q) (Some 20%Q) (Some 5%Q) (Some 3%Q)
                           (Some 90%Q) (Some 2%Q) (Some 0%Q) (Some 0%Q)) 50 in
  let fs := fun _ : list (list Q) => Some (mk_artifact 1) in
  let fr := fun (_ : list (list Q)) (_ : list Q) => Some (mk_artifact 2) in
  let rows := load_rows (historical (Some 1) 10000 metrics) in
  db_file "load_predictor" 1 = load_predictor (get_model_paths (Some 1)) /\
  exists model scaler,
    fs (map fst rows) = Some scaler /\
    fr (map fst rows) (map snd rows) = Some model /\
    fst (lookup_pair (snd (train_load_predictor fs fr (Some 1) metrics ∅)) 0 (Some 1)
           "load_predictor" "load_scaler" load_predictor load_scaler init_analyzer)
      = (Some model, Some scaler).
Proof.
  intros metrics fs fr.
  apply (train_load_predictor_served fs fr (Some 1) metrics ∅
           (snd (train_load_predictor fs fr (Some 1) metrics ∅))
           (db_file "load_predictor" 1) 0 init_analyzer);
    vm_compute; reflexivity.
Defined.

Lemma train_anomaly_detector_served_witness :
  let metrics := repeat (mk_metric 1 (Some 10%Q) (Some 20%Q) (Some 5%Q) (Some 3%Q)
                           (Some 90%Q) (Some 2%Q) (Some 0%Q) (Some 0%Q)) 50 in
  let fs := fun _ : list (list Q) => Some (mk_artifact 1) in
  let fi := fun _ : list (list Q) => Some (mk_artifact 2) in
  let rows := anomaly_rows (historical (Some 1) 5000 metrics) in
  db_file "anomaly_detector" 1 = anomaly_detector (get_model_paths (Some 1)) /\
  exists model scaler,
    fs rows = Some scaler /\
    fi rows = Some model /\
    fst (lookup_pair (snd (train_anomaly_detector fs fi (Some 1) metrics ∅)) 0 (Some 1)
           "anomaly_detector" "anomaly_scaler" anomaly_detector anomaly_scaler init_analyzer)
      = (Some model, Some scaler).
Proof.
  intros metrics fs fi.
  apply (train_anomaly_detector_served fs fi (Some 1) metrics ∅
           (snd (train_anomaly_detector fs fi (Some 1) metrics ∅))
           (db_file "anomaly_detector" 1) 0 init_analyzer);
    vm_compute; reflexivity.
Defined.

Lemma train_query_time_predictor_served_witness :
  let metrics := repeat (mk_metric 1 (Some 10%Q) (Some 20%Q) (Some 5%Q) (Some 3%Q)
                           (Some 90%Q) (Some 2%Q) (Some 0%Q) (Some 0%Q)) 50 in
  let fs := fun _ : list (list Q) => Some (mk_artifact 1) in
  let fr := fun (_ : list (list Q)) (_ : list Q) => Some (mk_artifact 2) in
  let rows := query_time_rows (historical (Some 1) 5000 metrics) in
  db_file "query_time_predictor" 1 = query_time_predictor (get_model_paths (Some 1)) /\
  exists model scaler,
    fs (map fst rows) = Some scaler /\
    fr (map fst rows) (map snd rows) = Some model /\
    fst (lookup_pair (snd (train_query_time_predictor fs fr (Some 1) metrics ∅)) 0 (Some 1)
           "query_time_predictor" "query_time_scaler" query_time_predictor
           query_time_scaler init_analyzer)
      = (Some model, Some scaler).
Proof.
  intros metrics fs fr.
  apply (train_query_time_predictor_served fs fr (Some 1) metrics ∅
           (snd (train_query_time_predictor fs fr (Some 1) metrics ∅))
           (db_file "query_time_predictor" 1) 0 init_analyzer);
    vm_compute; reflexivity.
Defined.

End ModelFilesFacts.
